(** * annas-mcp: the [anna] package (internal/anna/anna.go)

    A shallow embedding of the annotation parser [extractMetaInformation],
    of the search driver [FindBook] and of the two-stage [Download], together
    with the parts of Go's standard library they call.

    Go strings are byte sequences; they are modelled by [string], whose
    characters are bytes.  A non-ASCII rune therefore occupies several
    characters, exactly as in Go: the middle dot is [C2 B7], the check-mark
    glyph is [E2 9C 85]. *)

From Stdlib Require Import ZArith Lia Ascii String List Bool.
From stdpp Require Import gmap strings list.

Local Open Scope Z_scope.

(* ===================================================================== *)
(** * Part I: definitions                                                 *)
(* ===================================================================== *)

(** ** Byte strings *)

Module Bytes.

(** [of_codes [194; 183]] is the two-byte string [C2 B7]. *)
Definition of_codes (l : list nat) : string :=
  String.string_of_list_ascii (List.map ascii_of_nat l).

Definition codes (s : string) : list nat :=
  List.map nat_of_ascii (String.list_ascii_of_string s).

(** [len(s)] *)
Definition len (s : string) : Z := Z.of_nat (String.length s).

(** [s[:n]] *)
Fixpoint take (n : nat) (s : string) : string :=
  match n, s with
  | S n', String c s' => String c (take n' s')
  | _, _ => EmptyString
  end.

(** [s[n:]] *)
Fixpoint drop (n : nat) (s : string) : string :=
  match n, s with
  | S n', String _ s' => drop n' s'
  | _, _ => s
  end.

Fixpoint rev_onto (acc s : string) : string :=
  match s with
  | EmptyString => acc
  | String c s' => rev_onto (String c acc) s'
  end.

Definition rev (s : string) : string := rev_onto EmptyString s.

(** Repeatedly cut a leading chunk off [s]: [width s] is the number of
    bytes to cut, [0%nat] to stop.  Every round removes at least one byte,
    so [String.length s] rounds are always enough. *)
Fixpoint strip_rounds (rounds : nat) (width : string -> nat) (s : string)
  : string :=
  match rounds with
  | O => s
  | S r =>
      match width s with
      | O => s
      | n => strip_rounds r width (drop n s)
      end
  end.

Definition strip (width : string -> nat) (s : string) : string :=
  strip_rounds (String.length s) width s.

End Bytes.

(** ** Package [strings] of the Go standard library *)

Module GoStrings.
Import Bytes.

(** [strings.HasPrefix] *)
Fixpoint HasPrefix (s prefix : string) {struct prefix} : bool :=
  match prefix, s with
  | EmptyString, _ => true
  | String p prefix', String c s' =>
      if Ascii.eqb c p then HasPrefix s' prefix' else false
  | String _ _, EmptyString => false
  end.

(** [strings.Index]: byte offset of the first instance of [substr] in
    [s], or [-1]. *)
Fixpoint Index_from (i : Z) (s substr : string) : Z :=
  if HasPrefix s substr then i
  else match s with
       | EmptyString => -1
       | String _ s' => Index_from (i + 1) s' substr
       end.

Definition Index (s substr : string) : Z := Index_from 0 s substr.

(** What [Index] is to find: [sub] stands in [s] at byte offset [k], and nowhere before. *)
Definition first_at (sub s : string) (k : nat) : Prop :=
  (k <= String.length s)%nat
  /\ HasPrefix (drop k s) sub = true
  /\ forall j, (j < k)%nat -> HasPrefix (drop j s) sub = false.

Definition nowhere (sub s : string) : Prop :=
  forall j, (j <= String.length s)%nat -> HasPrefix (drop j s) sub = false.

(** [strings.Contains] is [Index(s, substr) >= 0]. *)
Definition Contains (s substr : string) : bool := 0 <=? Index s substr.

(** [strings.TrimPrefix] *)
Definition TrimPrefix (s prefix : string) : string :=
  if HasPrefix s prefix then drop (String.length prefix) s else s.

(** [strings.ReplaceAll] for a one-byte [old]. *)
Fixpoint ReplaceAll (s : string) (old : ascii) (new : string) : string :=
  match s with
  | EmptyString => EmptyString
  | String c s' =>
      if Ascii.eqb c old then new +:+ ReplaceAll s' old new
      else String c (ReplaceAll s' old new)
  end.

(** [strings.Split] for a non-empty separator.  The loop of [genSplit]
    cuts at the leftmost instance of [sep] and goes on behind it; the
    piece left over when no instance remains is the last element. *)
Fixpoint genSplit (rounds : nat) (s sep : string) : list string :=
  match rounds with
  | O => [s]
  | S r =>
      let m := Index s sep in
      if m <? 0 then [s]
      else take (Z.to_nat m) s
             :: genSplit r (drop (Z.to_nat m + String.length sep) s) sep
  end.

Definition Split (s sep : string) : list string :=
  genSplit (String.length s) s sep.

(** Width of the leading rune of [s] when it is one of [runes], each given
    by its UTF-8 encoding; [0] otherwise.  A rune has exactly one valid
    encoding and Go decodes any invalid sequence to [utf8.RuneError] of
    width 1, which is in no set used here, so comparing encodings is the
    same as decoding and comparing runes. *)
Fixpoint leading_width (runes : list string) (s : string) : nat :=
  match runes with
  | [] => O
  | r :: runes' =>
      if HasPrefix s r then String.length r else leading_width runes' s
  end.

(** [strings.TrimLeft], the cutset given rune by rune. *)
Definition TrimLeft (s : string) (cutset : list string) : string :=
  strip (leading_width cutset) s.

(** The runes of [unicode.IsSpace]: tab, LF, VT, FF, CR, space, U+0085,
    U+00A0, U+1680, U+2000..U+200A, U+2028, U+2029, U+202F, U+205F and
    U+3000, in UTF-8. *)
Definition spaces : list string :=
  List.map of_codes
    [ [9]; [10]; [11]; [12]; [13]; [32];
      [194; 133]; [194; 160];
      [225; 154; 128];
      [226; 128; 128]; [226; 128; 129]; [226; 128; 130]; [226; 128; 131];
      [226; 128; 132]; [226; 128; 133]; [226; 128; 134]; [226; 128; 135];
      [226; 128; 136]; [226; 128; 137]; [226; 128; 138];
      [226; 128; 168]; [226; 128; 169]; [226; 128; 175];
      [226; 129; 159];
      [227; 128; 128] ]%nat.

(** [strings.TrimSpace]: leading white space is cut first, trailing white
    space (decoded backwards from the end) second. *)
Definition TrimSpace (s : string) : string :=
  let s1 := strip (leading_width spaces) s in
  rev (strip (leading_width (List.map rev spaces)) (rev s1)).

(** [strings.Join]: the elements with [sep] between them. *)
Fixpoint Join (elems : list string) (sep : string) : string :=
  match elems with
  | [] => EmptyString
  | [e] => e
  | e :: elems' => e +:+ sep +:+ Join elems' sep
  end.

(** No white-space rune at the front of [s] and none at its end. *)
Definition trimmed (s : string) : Prop :=
  leading_width spaces s = O
  /\ leading_width (List.map rev spaces) (rev s) = O.

(** The byte [c] occurs in [s]. *)
Fixpoint has_byte (c : ascii) (s : string) : bool :=
  match s with
  | EmptyString => false
  | String a s' => Ascii.eqb a c || has_byte c s'
  end.

End GoStrings.

(** ** [url.QueryEscape] *)

Module GoUrl.

Definition code (c : ascii) : Z := Z.of_nat (nat_of_ascii c).

(** The characters [shouldEscape] leaves alone in a query component:
    letters, digits, [-], [_], [.] and [~]. *)
Definition unreserved (c : ascii) : bool :=
  let n := code c in
  ((97 <=? n) && (n <=? 122)) || ((65 <=? n) && (n <=? 90))
  || ((48 <=? n) && (n <=? 57))
  || (n =? 45) || (n =? 95) || (n =? 46) || (n =? 126).

Definition upperhex (d : Z) : ascii :=
  ascii_of_nat (Z.to_nat (if d <? 10 then 48 + d else 55 + d)).

Fixpoint QueryEscape (s : string) : string :=
  match s with
  | EmptyString => EmptyString
  | String c s' =>
      if unreserved c then String c (QueryEscape s')
      else if code c =? 32 then String "+" (QueryEscape s')
      else String "%" (String (upperhex (Z.shiftr (code c) 4))
             (String (upperhex (Z.land (code c) 15)) (QueryEscape s')))
  end.

(** The value of a hexadecimal digit as [upperhex] writes it. *)
Definition unhex (c : ascii) : option Z :=
  let n := code c in
  if (48 <=? n) && (n <=? 57) then Some (n - 48)
  else if (65 <=? n) && (n <=? 70) then Some (n - 55)
  else None.

(** Reading an escaped query component back: [+] is the space, [%] takes
    the two digits behind it, any other byte stands for itself. *)
Fixpoint unescape (s : string) : option string :=
  match s with
  | EmptyString => Some EmptyString
  | String c s' =>
      if code c =? 37 then
        match s' with
        | String x (String y rest) =>
            match unhex x, unhex y, unescape rest with
            | Some a, Some b, Some t =>
                Some (String (ascii_of_nat (Z.to_nat (16 * a + b))) t)
            | _, _, _ => None
            end
        | _ => None
        end
      else
        match unescape s' with
        | Some t => Some (String (if code c =? 43 then " "%char else c) t)
        | None => None
        end
  end.

(** The bytes an escaped query component is made of: the unreserved ones,
    [+] for the space and [%] in front of two hexadecimal digits. *)
Definition escapedByte (c : ascii) : bool :=
  unreserved c || (code c =? 43) || (code c =? 37).

Fixpoint all_bytes (p : ascii -> bool) (s : string) : bool :=
  match s with
  | EmptyString => true
  | String c s' => p c && all_bytes p s'
  end.

End GoUrl.

(** ** [filepath.Clean] and [filepath.Join], with [/] as the separator *)

Module GoFilepath.
Import GoStrings.

(** The elements of a path: the pieces between the separators. *)
Fixpoint elements (path : string) : list string :=
  match path with
  | EmptyString => [EmptyString]
  | String c path' =>
      if Ascii.eqb c "/" then EmptyString :: elements path'
      else match elements path' with
           | e :: es => String c e :: es
           | [] => [String c EmptyString]
           end
  end.

(** One element against the elements kept so far, last one first: empty
    and [.] elements go away, [..] takes the element before it with it,
    stays when there is none to take, and goes away at the root. *)
Definition cleanStep (rooted : bool) (kept : list string) (e : string)
  : list string :=
  if bool_decide (e = EmptyString) || bool_decide (e = ".") then kept
  else if bool_decide (e = "..") then
    match kept with
    | top :: below =>
        if bool_decide (top = "..") then e :: kept else below
    | [] => if rooted then [] else [e]
    end
  else e :: kept.

Definition cleanElements (rooted : bool) (es : list string) : list string :=
  List.rev (List.fold_left (cleanStep rooted) es []).

Fixpoint joinElements (es : list string) : string :=
  match es with
  | [] => EmptyString
  | [e] => e
  | e :: es' => e +:+ "/" +:+ joinElements es'
  end.

Definition Clean (path : string) : string :=
  let rooted := HasPrefix path "/" in
  let out := joinElements (cleanElements rooted (elements path)) in
  if rooted then "/" +:+ out
  else if bool_decide (out = EmptyString) then "." else out.

(** [filepath.Join(dir, name)]: empty elements are ignored, the rest is
    joined by the separator and cleaned. *)
Definition Join (dir name : string) : string :=
  if bool_decide (dir = EmptyString) then
    if bool_decide (name = EmptyString) then EmptyString else Clean name
  else Clean (dir +:+ "/" +:+ name).

(** The elements [Clean] keeps are proper names: not empty, not [.], not [/]. *)
Definition properName (e : string) : Prop :=
  e <> EmptyString /\ e <> "." /\ e <> "/".

(** The path of the entry [name] of the cleaned directory [dir]. *)
Definition child (dir name : string) : string :=
  if bool_decide (dir = ".") then name
  else if bool_decide (dir = "/") then "/" +:+ name
  else dir +:+ "/" +:+ name.

End GoFilepath.

(** ** The annotation parser *)

Module anna.
Import Bytes GoStrings.

(** The delimiter [" · "]: a space, the middle dot U+00B7, a space. *)
Definition metaSep : string := " · ".

(** The cutset ["✅ "] of [strings.TrimLeft]: U+2705 and the space. *)
Definition checkmarkCutset : list string := ["✅"; " "].

(** [parts[i]]; every use in the source is guarded by a bounds check. *)
Definition at_index (parts : list string) (i : Z) : string :=
  List.nth (Z.to_nat i) parts EmptyString.

Definition hasSizeUnit (part : string) : bool :=
  Contains part "MB" || Contains part "KB" || Contains part "GB".

(** The [for i := 1; i < len(parts); i++] loop; [n] is the number of
    iterations still possible, [len(parts) - i].  It returns
    [(formatIdx, sizeIdx)]. *)
Fixpoint scanLoop (n : nat) (i : Z) (parts : list string)
    (formatIdx sizeIdx : Z) : Z * Z :=
  match n with
  | O => (formatIdx, sizeIdx)
  | S n' =>
      let part := TrimSpace (at_index parts i) in
      if hasSizeUnit part then
        let sizeIdx := i in
        let formatIdx :=
          if (formatIdx =? -1) && (0 <? i) then i - 1 else formatIdx in
        (formatIdx, sizeIdx)
      else scanLoop n' (i + 1) parts formatIdx sizeIdx
  end.

Definition extractLanguage (part0 : string) : string :=
  let languagePart := TrimSpace part0 in
  let idx := Index languagePart "[" in
  if 0 <? idx then
    let language := TrimSpace (take (Z.to_nat idx) languagePart) in
    TrimLeft language checkmarkCutset
  else EmptyString.

Definition extractMetaInformation (meta : string)
  : string * string * string :=
  let parts := Split meta metaSep in
  let n := Z.of_nat (List.length parts) in
  if n <? 3 then (EmptyString, EmptyString, EmptyString)
  else
    let language := extractLanguage (at_index parts 0) in
    let '(formatIdx, sizeIdx) :=
      scanLoop (List.length parts - 1) 1 parts (-1) (-1) in
    let format :=
      if (0 <? formatIdx) && (formatIdx <? n)
      then TrimSpace (at_index parts formatIdx) else EmptyString in
    let size :=
      if (0 <? sizeIdx) && (sizeIdx <? n)
      then TrimSpace (at_index parts sizeIdx) else EmptyString in
    (language, format, size).

Definition language_of (r : string * string * string) : string := r.1.1.
Definition format_of (r : string * string * string) : string := r.1.2.
Definition size_of (r : string * string * string) : string := r.2.

(** The segments of an annotation. *)
Definition segments (meta : string) : list string := Split meta metaSep.

(** The vocabulary of the parser's contract: the trimmed segment at index
    [i] contains one of the size units; [i] is the smallest such index from
    1 on; there is no such index. *)
Definition sizeBearing (parts : list string) (i : Z) : bool :=
  hasSizeUnit (TrimSpace (at_index parts i)).

Definition firstSizeBearing (parts : list string) (i : Z) : Prop :=
  1 <= i < Z.of_nat (List.length parts)
  /\ sizeBearing parts i = true
  /\ forall j, 1 <= j < i -> sizeBearing parts j = false.

Definition noSizeBearing (parts : list string) : Prop :=
  forall j, 1 <= j < Z.of_nat (List.length parts) ->
    sizeBearing parts j = false.


(** ** The outside world *)

(** Go's [error] values; [nil] is [None] in an [option error]. *)
Inductive error : Type := errors_New (msg : string).

Definition error_message (e : error) : string :=
  match e with errors_New msg => msg end.

(** An [io.ReadCloser]: the bytes it delivers and how it ends, with
    [io.EOF] ([None]) or with a read error. *)
Record Body : Type := mkBody {
  body_data : string;
  body_err : option error
}.

(** [http.Response], as far as [Download] looks at it. *)
Record Response : Type := mkResponse {
  StatusCode : Z;
  RespBody : Body
}.

(** Modelled from the spec: the struct [fastDownloadResponse] is declared
    outside anna.go; the resolve response exposes a [downloadURL] field and
    an optional [error] field. *)
Record fastDownloadResponse : Type := mkFastDownloadResponse {
  DownloadURL : string;
  Error : string
}.

(** Modelled from the spec: the struct [Book] is declared outside anna.go;
    its eight text fields are those of the data model and of the composite
    literal in [FindBook]. *)
Record Book : Type := mkBook {
  Language : string;
  Format : string;
  Size : string;
  Title : string;
  Publisher : string;
  Authors : string;
  URL : string;
  Hash : string
}.

(** A [*colly.HTMLElement] for an [a] element of the page, reduced to what
    [FindBook] reads from it: two attributes ([Attr] gives the empty string
    for a missing one) and the four texts that the goquery selections
    starting at [e.DOM.Parent().Find("div.max-w-full")] produce. *)
Record HTMLElement : Type := mkHTMLElement {
  attr_href : string;
  attr_class : string;
  info_title : string;      (* .Find("a[href^='/md5/']").Text() *)
  info_authors : string;    (* the user-edit icon's parent, .Text() *)
  info_publisher : string;  (* the company icon's parent, .Text() *)
  info_meta : string        (* .Find("div.text-gray-800").Text() *)
}.

(** What the program cannot decide by itself.
    - [colly_Visit url]: the page fetch of the collector, an error or the
      [a] elements of the page in document order;
    - [AbsoluteURL url link]: [e.Request.AbsoluteURL(link)] for a request
      to [url];
    - [http_Get earlier url]: the answer to [http.Get(url)] after the
      requests [earlier];
    - [json_Decode body]: [json.NewDecoder(body).Decode(&apiResp)];
    - [os_Create fs path]: why [os.Create(path)] fails in the file system
      [fs], [None] when it succeeds;
    - [write_fault path]: [Some (n, e)] when writing to [path] fails with
      [e] once [n] bytes went through. *)
Record Host : Type := mkHost {
  colly_Visit : string -> error + list HTMLElement;
  AbsoluteURL : string -> string -> string;
  http_Get : list string -> string -> error + Response;
  json_Decode : Body -> error + fastDownloadResponse;
  os_Create : gmap string string -> string -> option error;
  write_fault : string -> option (nat * error)
}.

(** The state [Download] acts on: the regular files, path to content, and
    the log of the HTTP requests made so far. *)
Record World : Type := mkWorld {
  files : gmap string string;
  requests : list string
}.

(** ** [FindBook] *)

Definition AnnasSearchEndpoint (q : string) : string :=
  "https://annas-archive.org/search?q=" +:+ q.

Definition AnnasDownloadEndpoint (md5 key : string) : string :=
  "https://annas-archive.org/dyn/api/fast_download.json?md5=" +:+ md5
    +:+ "&key=" +:+ key.

Definition primaryClass : string :=
  "custom-a block mr-2 sm:mr-4 hover:opacity-80".

(** The [OnHTML] callback runs for the elements matching
    [a[href^='/md5/']] and keeps those of the primary class. *)
Definition isPrimaryAnchor (e : HTMLElement) : bool :=
  HasPrefix (attr_href e) "/md5/"
  && bool_decide (attr_class e = primaryClass).

Definition bookOfElement (h : Host) (fullURL : string) (e : HTMLElement)
  : Book :=
  let title := info_title e in
  let authors := TrimSpace (info_authors e) in
  let publisher := TrimSpace (info_publisher e) in
  let meta := info_meta e in
  let '(language, format, size) := extractMetaInformation meta in
  let link := attr_href e in
  let hash := TrimPrefix link "/md5/" in
  {| Language := language;
     Format := format;
     Size := size;
     Title := TrimSpace title;
     Publisher := publisher;
     Authors := authors;
     URL := AbsoluteURL h fullURL link;
     Hash := hash |}.

(** The collector visits one URL and [c.Wait()] returns when the callbacks
    are done, so the asynchronous fetch looks synchronous from here; the
    [OnRequest] callback only logs.  The result of [c.Visit(fullURL)] is
    dropped: after a failed fetch no [OnHTML] callback has run and
    [bookList] is still empty. *)
Definition FindBook (h : Host) (query : string)
  : list Book * option error :=
  let fullURL := AnnasSearchEndpoint (GoUrl.QueryEscape query) in
  let bookList :=
    match colly_Visit h fullURL with
    | inl _ => []
    | inr page => List.filter isPrimaryAnchor page
    end in
  let bookListParsed := List.map (bookOfElement h fullURL) bookList in
  (bookListParsed, None).

(** ** [Download] *)

(** A computation that may change the world and may stop with an error. *)
Definition IO (A : Type) : Type := World -> (error + A) * World.

Definition ret {A} (a : A) : IO A := fun w => (inr a, w).

Definition throw {A} (e : error) : IO A := fun w => (inl e, w).

Definition bind {A B} (c : IO A) (k : A -> IO B) : IO B :=
  fun w =>
    match c w with
    | (inl e, w') => (inl e, w')
    | (inr a, w') => k a w'
    end.

Notation "'try' x <- c ;; k" := (bind c (fun x => k))
  (at level 10, x name, c at level 99, k at level 200).

Definition httpGet (h : Host) (url : string) : IO Response :=
  fun w =>
    (http_Get h (requests w) url,
     {| files := files w; requests := requests w ++ [url] |}).

Definition decodeJSON (h : Host) (b : Body) : IO fastDownloadResponse :=
  fun w => (json_Decode h b, w).

(** [os.Create]: on success the file exists and is empty. *)
Definition osCreate (h : Host) (path : string) : IO string :=
  fun w =>
    match os_Create h (files w) path with
    | Some e => (inl e, w)
    | None =>
        (inr path,
         {| files := <[path := EmptyString]> (files w);
            requests := requests w |})
    end.

(** What [io.Copy] writes and the error it returns. *)
Definition copied (h : Host) (path : string) (src : Body)
  : string * option error :=
  match write_fault h path with
  | Some (n, e) =>
      if (n <? String.length (body_data src))%nat
      then (take n (body_data src), Some e)
      else (body_data src, body_err src)
  | None => (body_data src, body_err src)
  end.

Definition ioCopy (h : Host) (out : string) (src : Body) : IO unit :=
  fun w =>
    let '(written, err) := copied h out src in
    let w' := {| files := <[out := written]> (files w);
                 requests := requests w |} in
    match err with
    | Some e => (inl e, w')
    | None => (inr tt, w')
    end.

Definition fileName (b : Book) : string :=
  let filename := Title b +:+ "." +:+ Format b in
  ReplaceAll filename "/" "_".

Definition filePath (b : Book) (folderPath : string) : string :=
  GoFilepath.Join folderPath (fileName b).

Definition StatusOK : Z := 200.

(** The two deferred [Body.Close] calls and the deferred [out.Close] change
    neither the files nor the request log and are left out. *)
Definition DownloadIO (h : Host) (b : Book) (secretKey folderPath : string)
  : IO unit :=
  let apiURL := AnnasDownloadEndpoint (Hash b) secretKey in
  try resp <- httpGet h apiURL ;;
  try apiResp <- decodeJSON h (RespBody resp) ;;
  if bool_decide (DownloadURL apiResp = EmptyString) then
    if negb (bool_decide (Error apiResp = EmptyString)) then
      throw (errors_New (Error apiResp))
    else throw (errors_New "failed to get download URL")
  else
    try downloadResp <- httpGet h (DownloadURL apiResp) ;;
    if negb (StatusCode downloadResp =? StatusOK) then
      throw (errors_New "failed to download file")
    else
      try out <- osCreate h (filePath b folderPath) ;;
      ioCopy h out (RespBody downloadResp).

(** [Download] returns an [error]; [nil] is [None]. *)
Definition Download (h : Host) (b : Book) (secretKey folderPath : string)
    (w : World) : option error * World :=
  match DownloadIO h b secretKey folderPath w with
  | (inl e, w') => (Some e, w')
  | (inr _, w') => (None, w')
  end.

(** ** [String] *)

Definition newline : string := String (ascii_of_nat 10) EmptyString.

(** [func (b *Book) String() string]: the eight fields, one [label: value]
    per line, the verb [%s] printing a string as it is. *)
Definition Book_String (b : Book) : string :=
  "Title: " +:+ Title b +:+ newline
  +:+ "Authors: " +:+ Authors b +:+ newline
  +:+ "Publisher: " +:+ Publisher b +:+ newline
  +:+ "Language: " +:+ Language b +:+ newline
  +:+ "Format: " +:+ Format b +:+ newline
  +:+ "Size: " +:+ Size b +:+ newline
  +:+ "URL: " +:+ URL b +:+ newline
  +:+ "Hash: " +:+ Hash b.

(** The field holds no line feed. *)
Definition oneLine (s : string) : Prop := has_byte (ascii_of_nat 10) s = false.

End anna.

(** ** Scenarios: concrete hosts, pages and records *)

Module Scenario.
Import Bytes GoStrings anna.

Definition noBody : Body := {| body_data := EmptyString; body_err := None |}.

(** A host whose search page holds [page], whose resolve endpoint answers
    [resolved], and whose file server answers with [status] and [body];
    the first request of a run is the resolve request.  Files can always
    be created and written. *)
Definition scripted (page : list HTMLElement)
    (resolved : fastDownloadResponse) (status : Z) (body : Body) : Host :=
  {| colly_Visit := fun _ => inr page;
     AbsoluteURL := fun _ link => "https://annas-archive.org" +:+ link;
     http_Get := fun earlier _ =>
       match earlier with
       | [] => inr {| StatusCode := 200; RespBody := noBody |}
       | _ => inr {| StatusCode := status; RespBody := body |}
       end;
     json_Decode := fun _ => inr resolved;
     os_Create := fun _ _ => None;
     write_fault := fun _ => None |}.

(** A host that cannot be reached. *)
Definition unreachable : Host :=
  {| colly_Visit := fun _ => inl (errors_New "connection refused");
     AbsoluteURL := fun _ link => "https://annas-archive.org" +:+ link;
     http_Get := fun _ _ => inl (errors_New "connection refused");
     json_Decode := fun _ => inl (errors_New "EOF");
     os_Create := fun _ _ => None;
     write_fault := fun _ => None |}.

Definition anchor (href : string) : HTMLElement :=
  {| attr_href := href;
     attr_class := primaryClass;
     info_title := "Dune";
     info_authors := "Frank Herbert";
     info_publisher := "Ace";
     info_meta := "✅ English [en] · EPUB · 0.7MB · 1965" |}.

(** A page with the two links of one record, cover link and title link,
    and a primary anchor whose href stops after the prefix. *)
Definition resultPage : list HTMLElement :=
  [ anchor "/md5/d41d8";
    {| attr_href := "/md5/d41d8"; attr_class := "js-title";
       info_title := "Dune"; info_authors := EmptyString;
       info_publisher := EmptyString; info_meta := EmptyString |};
    anchor "/md5/" ].

Definition book (title format : string) : Book :=
  {| Language := "English"; Format := format; Size := "0.7MB";
     Title := title; Publisher := "Ace"; Authors := "Frank Herbert";
     URL := "https://annas-archive.org/md5/d41d8";
     Hash := "d41d8" |}.

Definition resolvedTo (url : string) : fastDownloadResponse :=
  {| DownloadURL := url; Error := EmptyString |}.

Definition refused (msg : string) : fastDownloadResponse :=
  {| DownloadURL := EmptyString; Error := msg |}.

Definition fresh : World := {| files := ∅; requests := [] |}.

End Scenario.

Import Bytes GoStrings anna.

(* ===================================================================== *)
(** * Part II: properties                                                 *)
(* ===================================================================== *)

(** ** The literals of the source, byte by byte *)

Example metaSep_bytes : codes metaSep = [32; 194; 183; 32]%nat.
Proof. reflexivity. Qed.

Example checkmarkCutset_bytes :
  List.map codes checkmarkCutset = [[226; 156; 133]; [32]]%nat.
Proof. reflexivity. Qed.

(** ** The library functions on sample inputs *)

Example Split_segments :
  Split "a · b ·  · c · " metaSep = ["a"; "b"; EmptyString; "c"; EmptyString].
Proof. reflexivity. Qed.

Example Split_no_separator : Split "EPUB" metaSep = ["EPUB"].
Proof. reflexivity. Qed.

(** Tab, space and U+2000 in front, U+00A0 and a line feed behind; the
    space inside stays. *)
Example TrimSpace_unicode :
  TrimSpace (of_codes [9; 32; 226; 128; 128; 65; 32; 66; 194; 160; 10]%nat)
  = "A B".
Proof. reflexivity. Qed.

(** A continuation byte without its lead byte is no white space. *)
Example TrimSpace_invalid_utf8 :
  codes (TrimSpace (of_codes [65; 160; 160; 32]%nat)) = [65; 160; 160]%nat.
Proof. reflexivity. Qed.

Example TrimLeft_checkmarks :
  TrimLeft "✅ ✅  English " checkmarkCutset = "English ".
Proof. reflexivity. Qed.

Example TrimPrefix_md5 : TrimPrefix "/md5/d41d8" "/md5/" = "d41d8".
Proof. reflexivity. Qed.

Example QueryEscape_reserved :
  GoUrl.QueryEscape "dune: a/b c~é" = "dune%3A+a%2Fb+c~%C3%A9".
Proof. reflexivity. Qed.

Example Clean_table :
  List.map GoFilepath.Clean
    [EmptyString; "/"; "a//b/"; "a/../../b"; "/../a"; "a/b/../c"; "./a";
     "a/."; "a/.."; "/a/.."; "../.."; "abc/def/../ghi/."]
  = ["."; "/"; "a/b"; "../b"; "/a"; "a/c"; "a"; "a"; "."; "/"; "../..";
     "abc/ghi"].
Proof. reflexivity. Qed.

Example Join_table :
  List.map (fun dn => GoFilepath.Join dn.1 dn.2)
    [("a", "b"); ("a/", "b"); (EmptyString, "b"); ("a", EmptyString);
     ("/", "b"); ("a/b", "../c"); (EmptyString, EmptyString)]
  = ["a/b"; "a/b"; "b"; "a"; "/b"; "a/c"; EmptyString].
Proof. reflexivity. Qed.

(** ** Byte strings and the [strings] package *)

Section StringFacts.

Lemma append_cons (c : ascii) (s t : string) :
  String c s +:+ t = String c (s +:+ t).
Proof. reflexivity. Qed.

Lemma append_nil (t : string) : EmptyString +:+ t = t.
Proof. reflexivity. Qed.

Lemma append_assoc (s t u : string) : (s +:+ t) +:+ u = s +:+ (t +:+ u).
Proof.
  induction s as [|c s IH]; [reflexivity|].
  rewrite !append_cons. now rewrite IH.
Qed.

Lemma length_append (s t : string) :
  String.length (s +:+ t) = (String.length s + String.length t)%nat.
Proof.
  induction s as [|c s IH]; [reflexivity|].
  rewrite append_cons. simpl. now rewrite IH.
Qed.

Lemma length_drop_le (n : nat) (s : string) :
  (String.length (drop n s) <= String.length s)%nat.
Proof.
  revert s; induction n as [|n IH]; intros [|c s]; simpl; try lia.
  specialize (IH s); lia.
Qed.

Lemma strip_rounds_enough (width : string -> nat) (r : nat) :
  forall s r', (String.length s <= r)%nat -> (String.length s <= r')%nat ->
    strip_rounds r width s = strip_rounds r' width s.
Proof.
  induction r as [|r IH]; intros s r' Hr Hr'.
  - destruct s; simpl in *; [|lia].
    induction r' as [|r' IH']; simpl; [reflexivity|].
    destruct (width EmptyString); [reflexivity|]. apply IH'. simpl; lia.
  - destruct r' as [|r'].
    + destruct s; simpl in *; [|lia].
      destruct (width EmptyString); [reflexivity|]. apply (IH _ O); simpl; lia.
    + simpl. destruct (width s) as [|n]; [reflexivity|].
      destruct s as [|c s]; simpl in *; [apply IH; simpl; lia|].
      pose proof (length_drop_le n s). apply IH; lia.
Qed.

(** [strip] is the loop it stands for: cut while [width] says so. *)
Lemma strip_unfold (width : string -> nat) (s : string) :
  strip width s =
    match width s with
    | O => s
    | n => strip width (drop n s)
    end.
Proof.
  unfold strip. destruct s as [|c s]; simpl.
  - destruct (width EmptyString); reflexivity.
  - destruct (width (String c s)) as [|n]; [reflexivity|].
    pose proof (length_drop_le n s).
    apply strip_rounds_enough; lia.
Qed.

Lemma HasPrefix_length (s p : string) :
  HasPrefix s p = true -> (String.length p <= String.length s)%nat.
Proof.
  revert s; induction p as [|a p IH]; intros [|c s]; simpl;
    try lia; try discriminate.
  destruct (Ascii.eqb c a); [|discriminate].
  intros H. specialize (IH _ H). lia.
Qed.

Lemma Index_from_spec (sub : string) :
  forall s i, 0 <= i ->
    (Index_from i s sub = -1 /\ nowhere sub s)
    \/ exists k, Index_from i s sub = i + Z.of_nat k /\ first_at sub s k.
Proof.
  induction s as [|c s IH]; intros i Hi; cbn [Index_from].
  - destruct (HasPrefix EmptyString sub) eqn:E.
    + right. exists O. split; [lia|]. split; [simpl; lia|]. split; [exact E|].
      intros j Hj. lia.
    + left. split; [reflexivity|]. intros [|j] Hj; simpl in *; [exact E|lia].
  - destruct (HasPrefix (String c s) sub) eqn:E.
    + right. exists O. split; [lia|]. split; [simpl; lia|]. split; [exact E|].
      intros j Hj. lia.
    + destruct (IH (i + 1)) as [[H1 H2]|[k [H1 [H2 [H3 H4]]]]]; [lia| |].
      * left. split; [exact H1|]. intros [|j] Hj; [exact E|].
        simpl. apply H2. simpl in Hj. lia.
      * right. exists (S k). split; [lia|]. split; [simpl; lia|].
        split; [exact H3|].
        intros [|j] Hj; [exact E|]. simpl. apply H4. lia.
Qed.



(** ... and [-1] exactly when there is none. *)
Lemma Index_nowhere (sub s : string) :
  nowhere sub s -> Index s sub = -1.
Proof.
  intros Hno. unfold Index.
  destruct (Index_from_spec sub s 0) as [[H _]|[k [_ Hk]]]; [lia|exact H|].
  destruct Hk as (Hle & Hpre & _). rewrite (Hno _ Hle) in Hpre.
  discriminate.
Qed.

Lemma Index_range (sub s : string) :
  Index s sub = -1
  \/ (0 <= Index s sub
      /\ Index s sub + len sub <= len s).
Proof.
  unfold Index.
  destruct (Index_from_spec sub s 0) as [[H _]|[k [H Hk]]]; [lia|now left|].
  right. destruct Hk as (Hle & Hpre & _).
  apply HasPrefix_length in Hpre. rewrite H. unfold len. split; [lia|].
  assert (String.length (drop k s) + k = String.length s)%nat; [|lia].
  clear -Hle. revert s Hle.
  induction k as [|k IH]; intros [|c s]; simpl; intros; try lia.
  specialize (IH s). lia.
Qed.

Lemma length_drop_sep (sep s : string) (m : nat) :
  sep <> EmptyString ->
  (String.length (drop (m + String.length sep) s)
   <= Nat.pred (String.length s))%nat.
Proof.
  intros Hsep. destruct sep as [|a sep]; [congruence|].
  pose proof (length_drop_le (m + String.length (String a sep)) s) as H.
  destruct s as [|c s]; [exact H|].
  simpl. rewrite Nat.add_succ_r. simpl. apply length_drop_le.
Qed.

Lemma Index_empty (sep : string) :
  sep <> EmptyString -> Index EmptyString sep = -1.
Proof.
  intros Hsep. destruct sep; [congruence|]. reflexivity.
Qed.

Lemma genSplit_enough (sep : string) (r : nat) :
  sep <> EmptyString ->
  forall s r', (String.length s <= r)%nat -> (String.length s <= r')%nat ->
    genSplit r s sep = genSplit r' s sep.
Proof.
  intros Hsep. induction r as [|r IH]; intros s r' Hr Hr'.
  - destruct s; simpl in *; [|lia].
    destruct r'; simpl; [reflexivity|]. now rewrite Index_empty.
  - destruct r' as [|r'].
    + destruct s; simpl in *; [|lia]. now rewrite Index_empty.
    + simpl. destruct (Index s sep <? 0); [reflexivity|]. f_equal.
      pose proof (length_drop_sep sep s (Z.to_nat (Index s sep)) Hsep).
      apply IH; lia.
Qed.

(** [Split] is the loop of [genSplit]: no instance of [sep], one piece;
    otherwise the piece before the leftmost instance and the split of
    what follows it. *)
Lemma Split_unfold (s sep : string) :
  sep <> EmptyString ->
  Split s sep =
    let m := Index s sep in
    if m <? 0 then [s]
    else take (Z.to_nat m) s
           :: Split (drop (Z.to_nat m + String.length sep) s) sep.
Proof.
  intros Hsep. unfold Split. destruct s as [|c s].
  - simpl. now rewrite Index_empty.
  - change (String.length (String c s)) with (S (String.length s)).
    cbn [genSplit]. cbv zeta.
    destruct (Index (String c s) sep <? 0); [reflexivity|].
    f_equal.
    pose proof (length_drop_sep sep (String c s)
                  (Z.to_nat (Index (String c s) sep)) Hsep) as H.
    simpl in H. apply genSplit_enough; [exact Hsep|lia|lia].
Qed.

End StringFacts.

(** ** The annotation parser *)

Section AnnotationParser.

(** The scan stops at the first size-bearing segment from [i] on and
    yields its index and the one before; without one, both indices keep
    their initial [-1]. *)
Lemma scanLoop_spec (parts : list string) (n : nat) :
  forall i, 0 < i ->
    (exists k, i <= k < i + Z.of_nat n
               /\ sizeBearing parts k = true
               /\ (forall j, i <= j < k -> sizeBearing parts j = false)
               /\ scanLoop n i parts (-1) (-1) = (k - 1, k))
    \/ ((forall j, i <= j < i + Z.of_nat n -> sizeBearing parts j = false)
        /\ scanLoop n i parts (-1) (-1) = (-1, -1)).
Proof.
  induction n as [|n IH]; intros i Hi.
  - right. split; [intros j Hj; lia | reflexivity].
  - cbn [scanLoop]. cbv zeta.
    destruct (hasSizeUnit (TrimSpace (at_index parts i))) eqn:E.
    + left. exists i. split; [lia|]. split; [exact E|].
      split; [intros j Hj; lia|].
      replace (0 <? i) with true by (symmetry; apply Z.ltb_lt; lia).
      reflexivity.
    + destruct (IH (i + 1)) as [(k & Hk & Hs & Hb & Hr)|[Hb Hr]]; [lia| |].
      * left. exists k. split; [lia|]. split; [exact Hs|].
        split; [|exact Hr].
        intros j Hj. destruct (Z.eq_dec j i) as [->|Hne]; [exact E|].
        apply Hb. lia.
      * right. split; [|exact Hr].
        intros j Hj. destruct (Z.eq_dec j i) as [->|Hne]; [exact E|].
        apply Hb. lia.
Qed.

Lemma firstSizeBearing_unique (parts : list string) (i k : Z) :
  firstSizeBearing parts i -> firstSizeBearing parts k -> i = k.
Proof.
  intros (Hi & Si & Bi) (Hk & Sk & Bk).
  destruct (Z.lt_trichotomy i k) as [H|[H|H]]; [|exact H|].
  - rewrite (Bk i) in Si by lia. discriminate.
  - rewrite (Bi k) in Sk by lia. discriminate.
Qed.

(** With three segments or more, the three results are these. *)
Lemma extractMetaInformation_unfold (meta : string) :
  (3 <= List.length (segments meta))%nat ->
  extractMetaInformation meta =
    let parts := segments meta in
    let n := Z.of_nat (List.length parts) in
    let idx := scanLoop (List.length parts - 1) 1 parts (-1) (-1) in
    (extractLanguage (at_index parts 0),
     if (0 <? idx.1) && (idx.1 <? n)
     then TrimSpace (at_index parts idx.1) else EmptyString,
     if (0 <? idx.2) && (idx.2 <? n)
     then TrimSpace (at_index parts idx.2) else EmptyString).
Proof.
  intros H. unfold extractMetaInformation, segments in *.
  replace (Z.of_nat (List.length (Split meta metaSep)) <? 3) with false
    by (symmetry; apply Z.ltb_ge; lia).
  cbv zeta.
  destruct (scanLoop _ _ _ _ _) as [formatIdx sizeIdx]. reflexivity.
Qed.

End AnnotationParser.

(** C5.  For an annotation of at least three segments: when [i] is the
    smallest index from 1 on whose trimmed segment contains "MB", "KB" or
    "GB", the size is the trimmed segment at [i] and the format is the
    trimmed segment at [i - 1] for [i >= 2], empty for [i = 1]; without such
    an index both are empty.  The number of segments in front of the format
    plays no role. *)
Theorem extractMetaInformation_format_size (meta : string) :
  (3 <= List.length (segments meta))%nat ->
  let parts := segments meta in
  let r := extractMetaInformation meta in
  (forall i, firstSizeBearing parts i ->
     size_of r = TrimSpace (at_index parts i)
     /\ format_of r =
          if 2 <=? i then TrimSpace (at_index parts (i - 1)) else EmptyString)
  /\ (noSizeBearing parts -> format_of r = EmptyString /\ size_of r = EmptyString).
Proof.
  intros Hlen parts r. subst r.
  rewrite (extractMetaInformation_unfold meta Hlen). fold parts. cbv zeta.
  unfold size_of, format_of. cbn [fst snd].
  assert (Hn : 1 + Z.of_nat (List.length parts - 1)
               = Z.of_nat (List.length parts)) by (unfold parts; lia).
  destruct (scanLoop_spec parts (List.length parts - 1) 1)
    as [(k & Hk & Hs & Hb & Hr)|[Hb Hr]]; [lia| |]; rewrite Hr; cbn [fst snd].
  - assert (Hfirst : firstSizeBearing parts k).
    { split; [lia|]. split; [exact Hs|exact Hb]. }
    split.
    + intros i Hi. rewrite (firstSizeBearing_unique _ _ _ Hi Hfirst).
      replace (0 <? k) with true by (symmetry; apply Z.ltb_lt; lia).
      replace (k <? Z.of_nat (List.length parts)) with true
        by (symmetry; apply Z.ltb_lt; lia).
      replace (k - 1 <? Z.of_nat (List.length parts)) with true
        by (symmetry; apply Z.ltb_lt; lia).
      split; [reflexivity|].
      destruct (Z.leb_spec 2 k); destruct (Z.ltb_spec 0 (k - 1));
        try lia; reflexivity.
    + intros Hno. rewrite Hno in Hs by lia. discriminate.
  - split.
    + intros i (Hi & Si & _). rewrite Hb in Si by lia. discriminate.
    + intros _. split; reflexivity.
Qed.

Lemma extractMetaInformation_format_size_witness :
  size_of (extractMetaInformation
             "English [en] · Hindi [hi] · EPUB · 0.7MB · 2015") = "0.7MB"
  /\ format_of (extractMetaInformation
                  "English [en] · Hindi [hi] · EPUB · 0.7MB · 2015") = "EPUB".
Proof.
  assert (Hlen : (3 <= List.length
                    (segments "English [en] · Hindi [hi] · EPUB · 0.7MB · 2015"))%nat)
    by (vm_compute; lia).
  destruct (extractMetaInformation_format_size _ Hlen) as [H _].
  apply (H 3). split; [vm_compute; split; [discriminate|reflexivity]|].
  split; [reflexivity|].
  intros j Hj. assert (Hc : j = 1 \/ j = 2) by lia.
  destruct Hc as [-> | ->]; reflexivity.
Defined.

(** C6.  An annotation of fewer than three segments gives three empty
    strings; the parser has no error result, the empty triple is its whole
    answer. *)
Theorem extractMetaInformation_few_segments (meta : string) :
  (List.length (segments meta) < 3)%nat ->
  extractMetaInformation meta = (EmptyString, EmptyString, EmptyString).
Proof.
  intros H. unfold extractMetaInformation, segments in *.
  replace (Z.of_nat (List.length (Split meta metaSep)) <? 3) with true
    by (symmetry; apply Z.ltb_lt; lia).
  reflexivity.
Qed.

Lemma extractMetaInformation_few_segments_witness :
  extractMetaInformation "✅ English [en] · 0.7MB"
  = (EmptyString, EmptyString, EmptyString).
Proof.
  apply extractMetaInformation_few_segments. vm_compute. lia.
Defined.



(** The order of the two clean-up steps shows when a tab follows the check
    mark: trimming comes first, so the tab uncovered by the stripping
    stays. *)
Example extractLanguage_tab_after_checkmark :
  extractLanguage (of_codes [226; 156; 133; 9]%nat +:+ "English [en]")
  = of_codes [9]%nat +:+ "English".
Proof. reflexivity. Qed.

(** A bracket at offset 0 leaves the language empty, like no bracket. *)
Example extractLanguage_bracket_first :
  extractLanguage "[en] English" = EmptyString.
Proof. reflexivity. Qed.

(** The annotations of the source's comment and of the spec's scenarios. *)
Example extractMetaInformation_one_language :
  extractMetaInformation "✅ English [en] · EPUB · 0.7MB · 2015"
  = ("English", "EPUB", "0.7MB").
Proof. reflexivity. Qed.

Example extractMetaInformation_two_languages :
  extractMetaInformation "✅ English [en] · Hindi [hi] · EPUB · 0.7MB · 2015"
  = ("English", "EPUB", "0.7MB").
Proof. reflexivity. Qed.

Example extractMetaInformation_size_at_index_1 :
  extractMetaInformation "English [en] · 0.7MB · 2015"
  = ("English", EmptyString, "0.7MB").
Proof. reflexivity. Qed.

Example extractMetaInformation_no_size :
  extractMetaInformation "English [en] · EPUB · 2015"
  = ("English", EmptyString, EmptyString).
Proof. reflexivity. Qed.

(** ** [FindBook] *)

Section Search.

Lemma HasPrefix_split (s p : string) :
  HasPrefix s p = true -> s = p +:+ drop (String.length p) s.
Proof.
  revert s; induction p as [|a p IH]; intros s H; [reflexivity|].
  destruct s as [|c s]; [discriminate|]. simpl in H.
  destruct (Ascii.eqb_spec c a) as [->|]; [|discriminate].
  cbn [String.length drop]. rewrite append_cons. f_equal. apply IH, H.
Qed.

(** [FindBook] has one way out, and it returns a nil error. *)
Lemma FindBook_error_nil (h : Host) (query : string) :
  (FindBook h query).2 = None.
Proof. reflexivity. Qed.

Lemma bookOfElement_Hash (h : Host) (url : string) (e : HTMLElement) :
  Hash (bookOfElement h url e) = TrimPrefix (attr_href e) "/md5/".
Proof.
  unfold bookOfElement.
  destruct (extractMetaInformation (info_meta e)) as [[? ?] ?]. reflexivity.
Qed.

End Search.

(** C1.  When the page fetch fails, [FindBook] does not pass the failure on:
    it returns the empty list and a nil error. *)
Theorem FindBook_fetch_failure_dropped (h : Host) (query : string) (e : error) :
  colly_Visit h (AnnasSearchEndpoint (GoUrl.QueryEscape query)) = inl e ->
  FindBook h query = ([], None).
Proof.
  intros H. unfold FindBook. rewrite H. reflexivity.
Qed.

Lemma FindBook_fetch_failure_dropped_witness :
  FindBook Scenario.unreachable "dune" = ([], None).
Proof.
  apply (FindBook_fetch_failure_dropped Scenario.unreachable "dune"
           (errors_New "connection refused")).
  reflexivity.
Defined.

(** C2, refuted as stated: a primary anchor whose href is the bare prefix
    "/md5/" is not skipped; its record is returned with an empty [Hash]. *)
Lemma FindBook_empty_hash_emitted :
  List.map Hash
    (FindBook (Scenario.scripted [Scenario.anchor "/md5/"]
                 (Scenario.resolvedTo "http://x/file.epub") 200
                 Scenario.noBody) "dune").1
  = [EmptyString].
Proof. reflexivity. Qed.

(** C2, amended.  [FindBook] returns one record for each primary anchor of
    the fetched page (href starting with "/md5/", class the primary one), in
    page order, skipping none; the record's [Hash] is what follows "/md5/"
    in the href, so it is empty exactly for the bare prefix. *)
Theorem FindBook_hash_of_anchor (h : Host) (query : string)
    (page : list HTMLElement) :
  colly_Visit h (AnnasSearchEndpoint (GoUrl.QueryEscape query)) = inr page ->
  Forall2
    (fun e b =>
       attr_href e = "/md5/" +:+ Hash b
       /\ (Hash b = EmptyString <-> attr_href e = "/md5/"))
    (List.filter isPrimaryAnchor page) (FindBook h query).1.
Proof.
  intros H. unfold FindBook. rewrite H. cbn [fst]. clear H.
  induction page as [|e page IH]; [constructor|].
  cbn [List.filter]. destruct (isPrimaryAnchor e) eqn:E; [|exact IH].
  cbn [List.map]. constructor; [|exact IH].
  rewrite bookOfElement_Hash. unfold isPrimaryAnchor in E.
  apply andb_true_iff in E as [E _]. unfold TrimPrefix. rewrite E.
  pose proof (HasPrefix_split _ _ E) as Hs.
  split; [exact Hs|]. split.
  - intros Hd. rewrite Hs, Hd. reflexivity.
  - intros ->. reflexivity.
Qed.

Lemma FindBook_hash_of_anchor_witness :
  Forall2
    (fun e b =>
       attr_href e = "/md5/" +:+ Hash b
       /\ (Hash b = EmptyString <-> attr_href e = "/md5/"))
    [Scenario.anchor "/md5/d41d8"; Scenario.anchor "/md5/"]
    (FindBook (Scenario.scripted Scenario.resultPage
                 (Scenario.resolvedTo "http://x/file.epub") 200
                 Scenario.noBody) "dune").1.
Proof.
  exact (FindBook_hash_of_anchor
           (Scenario.scripted Scenario.resultPage
              (Scenario.resolvedTo "http://x/file.epub") 200
              Scenario.noBody)
           "dune" Scenario.resultPage eq_refl).
Defined.

(** The scraped record of the scenario, field by field. *)
Example FindBook_dune :
  (FindBook (Scenario.scripted [Scenario.anchor "/md5/d41d8"]
               (Scenario.resolvedTo "http://x/file.epub") 200
               Scenario.noBody) "dune").1
  = [ {| Language := "English"; Format := "EPUB"; Size := "0.7MB";
         Title := "Dune"; Publisher := "Ace"; Authors := "Frank Herbert";
         URL := "https://annas-archive.org/md5/d41d8";
         Hash := "d41d8" |} ].
Proof. reflexivity. Qed.

(** ** [Download] *)

Section DownloadFacts.

Variable h : Host.
Variable b : Book.
Variables secretKey folderPath : string.
Variable w : World.

Let apiURL : string := AnnasDownloadEndpoint (Hash b) secretKey.
Let afterResolve : World :=
  {| files := files w; requests := requests w ++ [apiURL] |}.

(** The run of [Download], stage by stage. *)
Lemma Download_unfold :
  Download h b secretKey folderPath w =
    match http_Get h (requests w) apiURL with
    | inl e => (Some e, afterResolve)
    | inr resp =>
        match json_Decode h (RespBody resp) with
        | inl e => (Some e, afterResolve)
        | inr apiResp =>
            if bool_decide (DownloadURL apiResp = EmptyString) then
              (Some (errors_New
                       (if bool_decide (Error apiResp = EmptyString)
                        then "failed to get download URL"
                        else Error apiResp)),
               afterResolve)
            else
              let reqs := (requests w ++ [apiURL]) ++ [DownloadURL apiResp] in
              match http_Get h (requests w ++ [apiURL]) (DownloadURL apiResp)
              with
              | inl e => (Some e, {| files := files w; requests := reqs |})
              | inr downloadResp =>
                  if StatusCode downloadResp =? StatusOK then
                    let p := filePath b folderPath in
                    match os_Create h (files w) p with
                    | Some e =>
                        (Some e, {| files := files w; requests := reqs |})
                    | None =>
                        let c := copied h p (RespBody downloadResp) in
                        (c.2, {| files := <[p := c.1]> (files w);
                                 requests := reqs |})
                    end
                  else
                    (Some (errors_New "failed to download file"),
                     {| files := files w; requests := reqs |})
              end
        end
    end.
Proof.
  unfold Download, DownloadIO, bind, httpGet, decodeJSON, throw. fold apiURL.
  cbn [files requests].
  destruct (http_Get h (requests w) apiURL) as [e|resp]; [reflexivity|].
  destruct (json_Decode h (RespBody resp)) as [e|apiResp]; [reflexivity|].
  destruct (bool_decide (DownloadURL apiResp = EmptyString)).
  { destruct (bool_decide (Error apiResp = EmptyString)); reflexivity. }
  cbn [files requests].
  destruct (http_Get h (requests w ++ [apiURL]) (DownloadURL apiResp))
    as [e|downloadResp]; [reflexivity|].
  destruct (StatusCode downloadResp =? StatusOK); [|reflexivity].
  cbn [negb]. unfold osCreate, ioCopy. cbn [files requests].
  destruct (os_Create h (files w) (filePath b folderPath)) as [e|];
    [reflexivity|].
  destruct (copied h (filePath b folderPath) (RespBody downloadResp))
    as [written [e|]]; cbn [files requests fst snd];
    rewrite insert_insert_eq; reflexivity.
Qed.


End DownloadFacts.

(** C8.  When the decoded resolve response has an empty [downloadURL],
    [Download] fails with the provider's message if there is one and with
    "failed to get download URL" otherwise; in both cases the resolve request
    is the only request made and no file is touched. *)
Theorem Download_resolve_without_url (h : Host) (b : Book)
    (secretKey folderPath : string) (w : World)
    (resp : Response) (apiResp : fastDownloadResponse) :
  http_Get h (requests w) (AnnasDownloadEndpoint (Hash b) secretKey)
    = inr resp ->
  json_Decode h (RespBody resp) = inr apiResp ->
  DownloadURL apiResp = EmptyString ->
  let r := Download h b secretKey folderPath w in
  (Error apiResp <> EmptyString -> r.1 = Some (errors_New (Error apiResp)))
  /\ (Error apiResp = EmptyString ->
      r.1 = Some (errors_New "failed to get download URL"))
  /\ requests r.2
     = requests w ++ [AnnasDownloadEndpoint (Hash b) secretKey]
  /\ files r.2 = files w.
Proof.
  intros Hget Hdec Hurl r. subst r. rewrite Download_unfold.
  rewrite Hget, Hdec, Hurl. cbn [fst snd files requests bool_decide].
  rewrite bool_decide_eq_true_2 by reflexivity. cbn [fst snd files requests].
  repeat split.
  - intros Hne. now rewrite bool_decide_eq_false_2.
  - intros He. now rewrite bool_decide_eq_true_2.
Qed.

Lemma Download_resolve_without_url_witness :
  (Download (Scenario.scripted [] (Scenario.refused "rate limited") 200
               Scenario.noBody)
     (Scenario.book "Dune" "epub") "key" "out" Scenario.fresh).1
  = Some (errors_New "rate limited").
Proof.
  refine (proj1 (Download_resolve_without_url
                   (Scenario.scripted [] (Scenario.refused "rate limited") 200
                      Scenario.noBody)
                   (Scenario.book "Dune" "epub") "key" "out" Scenario.fresh
                   {| StatusCode := 200; RespBody := Scenario.noBody |}
                   (Scenario.refused "rate limited")
                   eq_refl eq_refl eq_refl) _).
  discriminate.
Defined.

(** C3, refuted as stated: 206 is a 2xx status, but the body is not streamed;
    [Download] fails and the file system stays empty. *)
Lemma Download_206_not_streamed :
  200 <= 206 < 300
  /\ Download (Scenario.scripted [] (Scenario.resolvedTo "http://x/file.epub")
                 206 {| body_data := "bytes 0-3"; body_err := None |})
       (Scenario.book "Dune" "epub") "key" "out" Scenario.fresh
     = (Some (errors_New "failed to download file"),
        {| files := ∅;
           requests :=
             [AnnasDownloadEndpoint "d41d8" "key"; "http://x/file.epub"] |}).
Proof. split; [lia | reflexivity]. Qed.

(** C3, amended.  After a resolve stage that gave a non-empty [downloadURL]:
    a fetch response with any status other than 200, so every non-2xx status
    and the other 2xx ones, makes [Download] fail with "failed to download
    file" and leaves the files as they were; a 200 makes it create the
    destination file and stream the body into it, and a failing [os.Create]
    is the only way not to get there. *)
Theorem Download_fetch_status (h : Host) (b : Book)
    (secretKey folderPath : string) (w : World)
    (resp downloadResp : Response) (apiResp : fastDownloadResponse) :
  let apiURL := AnnasDownloadEndpoint (Hash b) secretKey in
  http_Get h (requests w) apiURL = inr resp ->
  json_Decode h (RespBody resp) = inr apiResp ->
  DownloadURL apiResp <> EmptyString ->
  http_Get h (requests w ++ [apiURL]) (DownloadURL apiResp)
    = inr downloadResp ->
  let r := Download h b secretKey folderPath w in
  let p := filePath b folderPath in
  (StatusCode downloadResp <> 200 ->
     r.1 = Some (errors_New "failed to download file")
     /\ files r.2 = files w)
  /\ (StatusCode downloadResp = 200 ->
      match os_Create h (files w) p with
      | Some e => r.1 = Some e /\ files r.2 = files w
      | None =>
          r.1 = (copied h p (RespBody downloadResp)).2
          /\ files r.2
             = <[p := (copied h p (RespBody downloadResp)).1]> (files w)
      end).
Proof.
  intros apiURL Hget Hdec Hurl Hfetch r p. subst r.
  rewrite Download_unfold. fold apiURL. rewrite Hget, Hdec.
  rewrite bool_decide_eq_false_2 by exact Hurl. cbv zeta.
  rewrite Hfetch. unfold StatusOK. split.
  - intros Hst. apply Z.eqb_neq in Hst. rewrite Hst. split; reflexivity.
  - intros Hst. rewrite Hst. cbn [Z.eqb Pos.eqb]. fold p.
    destruct (os_Create h (files w) p); split; reflexivity.
Qed.

Lemma Download_fetch_status_witness :
  (Download (Scenario.scripted [] (Scenario.resolvedTo "http://x/file.epub")
               404 Scenario.noBody)
     (Scenario.book "Dune" "epub") "key" "out" Scenario.fresh).1
  = Some (errors_New "failed to download file")
  /\ files
       (Download (Scenario.scripted []
                    (Scenario.resolvedTo "http://x/file.epub")
                    404 Scenario.noBody)
          (Scenario.book "Dune" "epub") "key" "out" Scenario.fresh).2
     = ∅.
Proof.
  refine (proj1 (Download_fetch_status
                   (Scenario.scripted []
                      (Scenario.resolvedTo "http://x/file.epub")
                      404 Scenario.noBody)
                   (Scenario.book "Dune" "epub") "key" "out" Scenario.fresh
                   {| StatusCode := 200; RespBody := Scenario.noBody |}
                   {| StatusCode := 404; RespBody := Scenario.noBody |}
                   (Scenario.resolvedTo "http://x/file.epub")
                   eq_refl eq_refl _ eq_refl) _).
  - discriminate.
  - cbn. lia.
Defined.

(** The spec's success scenario: a 200 writes the body to "out/Dune.epub". *)
Example Download_200_streamed :
  Download (Scenario.scripted [] (Scenario.resolvedTo "http://x/file.epub")
              200 {| body_data := "PK book"; body_err := None |})
    (Scenario.book "Dune" "epub") "key" "out" Scenario.fresh
  = (None,
     {| files := {[ "out/Dune.epub" := "PK book" ]};
        requests :=
          [AnnasDownloadEndpoint "d41d8" "key"; "http://x/file.epub"] |}).
Proof. reflexivity. Qed.



(** ** File names and paths *)

Section PathFacts.
Import GoFilepath.

Lemma ReplaceAll_app (s t : string) (old : ascii) (new : string) :
  ReplaceAll (s +:+ t) old new
  = ReplaceAll s old new +:+ ReplaceAll t old new.
Proof.
  induction s as [|c s IH]; [reflexivity|].
  rewrite append_cons. cbn [ReplaceAll].
  destruct (Ascii.eqb c old); rewrite IH.
  - now rewrite append_assoc.
  - now rewrite append_cons.
Qed.

Lemma ReplaceAll_slash_nowhere (s : string) :
  nowhere "/" (ReplaceAll s "/" "_").
Proof.
  induction s as [|c s IH]; intros j Hj.
  - destruct j; [reflexivity | simpl in Hj; lia].
  - cbn [ReplaceAll] in *. destruct (Ascii.eqb_spec c "/") as [->|Hc].
    + destruct j as [|j]; [reflexivity|]. apply IH.
      change ("_" +:+ ReplaceAll s "/" "_")
        with (String "_" (ReplaceAll s "/" "_")) in Hj.
      simpl in Hj. lia.
    + destruct j as [|j].
      * cbn [drop HasPrefix]. destruct (Ascii.eqb_spec c "/"); congruence.
      * apply IH. simpl in Hj. lia.
Qed.

Lemma nowhere_Contains (sub s : string) :
  nowhere sub s -> Contains s sub = false.
Proof.
  intros H. unfold Contains. rewrite (Index_nowhere _ _ H). reflexivity.
Qed.

Lemma nowhere_slash_cons (c : ascii) (s : string) :
  nowhere "/" (String c s) -> c <> "/"%char /\ nowhere "/" s.
Proof.
  intros H. split.
  - intros ->. assert (H0 := H O ltac:(simpl; lia)).
    vm_compute in H0. discriminate H0.
  - intros j Hj. apply (H (S j)). simpl. lia.
Qed.

Lemma elements_nonempty (path : string) : elements path <> [].
Proof.
  destruct path as [|c path]; simpl; [discriminate|].
  destruct (Ascii.eqb c "/"); [discriminate|].
  destruct (elements path); discriminate.
Qed.

Lemma elements_nowhere (name : string) :
  nowhere "/" name -> elements name = [name].
Proof.
  induction name as [|c name IH]; intros H; [reflexivity|].
  apply nowhere_slash_cons in H as [Hc H]. simpl.
  destruct (Ascii.eqb_spec c "/"); [congruence|]. now rewrite IH.
Qed.

Lemma elements_app (dir name : string) :
  elements (dir +:+ "/" +:+ name) = elements dir ++ elements name.
Proof.
  induction dir as [|c dir IH]; [reflexivity|].
  rewrite append_cons. cbn [elements]. rewrite IH.
  destruct (Ascii.eqb c "/"); [reflexivity|].
  destruct (elements dir) as [|e es] eqn:E; [|reflexivity].
  now apply elements_nonempty in E.
Qed.

Lemma elements_not_slash (path : string) :
  Forall (fun e => e <> "/") (elements path).
Proof.
  induction path as [|c path IH]; simpl.
  - constructor; [discriminate|constructor].
  - destruct (Ascii.eqb_spec c "/") as [->|Hc].
    + constructor; [discriminate|exact IH].
    + destruct (elements path) as [|e es]; constructor.
      * congruence.
      * constructor.
      * congruence.
      * now inversion IH.
Qed.

Lemma cleanStep_proper (rooted : bool) (kept : list string) (e : string) :
  e <> "/" -> Forall properName kept ->
  Forall properName (cleanStep rooted kept e).
Proof.
  intros He Hk. unfold cleanStep.
  destruct (bool_decide_reflect (e = EmptyString)); [exact Hk|].
  destruct (bool_decide_reflect (e = ".")); [exact Hk|].
  cbn [orb].
  assert (Hp : properName e) by (repeat split; assumption).
  destruct (bool_decide (e = "..")); [|now constructor].
  destruct kept as [|top below].
  - destruct rooted; [constructor|now constructor].
  - destruct (bool_decide (top = "..")); [now constructor|].
    now inversion Hk.
Qed.

Lemma fold_cleanStep_proper (rooted : bool) (es kept : list string) :
  Forall (fun e => e <> "/") es -> Forall properName kept ->
  Forall properName (List.fold_left (cleanStep rooted) es kept).
Proof.
  revert kept. induction es as [|e es IH]; intros kept Hes Hk; [exact Hk|].
  inversion Hes; subst. cbn [List.fold_left].
  apply IH; [assumption|]. now apply cleanStep_proper.
Qed.

Lemma joinElements_snoc (l : list string) (name : string) :
  joinElements (l ++ [name]) =
    match l with
    | [] => name
    | _ => joinElements l +:+ "/" +:+ name
    end.
Proof.
  induction l as [|e l IH]; [reflexivity|].
  destruct l as [|e' l]; [reflexivity|].
  change (joinElements ((e :: e' :: l) ++ [name]))
    with (e +:+ "/" +:+ joinElements ((e' :: l) ++ [name])).
  rewrite IH.
  change (joinElements (e :: e' :: l))
    with (e +:+ "/" +:+ joinElements (e' :: l)).
  now rewrite !append_assoc.
Qed.

Lemma joinElements_proper (l : list string) :
  l <> [] -> Forall properName l -> properName (joinElements l).
Proof.
  intros Hl Hp. destruct l as [|e l]; [congruence|].
  inversion Hp as [|? ? He Hrest]; subst.
  destruct l as [|e' l]; [exact He|].
  change (joinElements (e :: e' :: l))
    with (e +:+ "/" +:+ joinElements (e' :: l)).
  assert (Hlen : (2 <= String.length
                        (e +:+ "/" +:+ joinElements (e' :: l)))%nat).
  { rewrite !length_append. destruct He as [He _].
    destruct e; [congruence|]. simpl. lia. }
  repeat split; intros Heq; rewrite Heq in Hlen; simpl in Hlen; lia.
Qed.

(** Joining a proper, slash-free name onto a directory gives the entry of
    that name in the cleaned directory. *)
Lemma Join_child (dir name : string) :
  nowhere "/" name ->
  name <> EmptyString -> name <> "." -> name <> ".." ->
  Join dir name = child (Clean dir) name.
Proof.
  intros Hns Hne Hdot Hdotdot.
  assert (Hstep : forall rooted kept,
             cleanStep rooted kept name = name :: kept).
  { intros rooted kept. unfold cleanStep.
    rewrite !bool_decide_eq_false_2 by assumption. reflexivity. }
  assert (Hroot : HasPrefix name "/" = false) by (apply (Hns O); lia).
  unfold Join. destruct (bool_decide_reflect (dir = EmptyString)) as [->|Hd].
  - rewrite bool_decide_eq_false_2 by assumption.
    assert (Hc : Clean name = name).
    { unfold Clean, cleanElements. rewrite Hroot.
      rewrite (elements_nowhere _ Hns). cbn [List.fold_left].
      rewrite Hstep. cbn [List.rev app joinElements].
      now rewrite bool_decide_eq_false_2. }
    rewrite Hc. reflexivity.
  - unfold Clean, cleanElements.
    assert (Hr : HasPrefix (dir +:+ "/" +:+ name) "/" = HasPrefix dir "/").
    { destruct dir as [|c dir]; [congruence|]. rewrite append_cons.
      reflexivity. }
    rewrite Hr, elements_app, (elements_nowhere _ Hns), List.fold_left_app.
    cbn [List.fold_left]. rewrite Hstep. cbn [List.rev].
    rewrite joinElements_snoc.
    set (rooted := HasPrefix dir "/").
    pose proof (fold_cleanStep_proper rooted (elements dir) []
                  (elements_not_slash dir) ltac:(constructor)) as Hkept.
    apply Forall_rev in Hkept.
    destruct (List.rev (List.fold_left (cleanStep rooted) (elements dir) []))
      as [|e l] eqn:E.
    + cbn [joinElements]. destruct rooted.
      * reflexivity.
      * rewrite bool_decide_eq_false_2 by assumption. reflexivity.
    + assert (Hj : properName (joinElements (e :: l)))
        by (apply joinElements_proper; [discriminate|exact Hkept]).
      destruct Hj as (Hj1 & Hj2 & Hj3). unfold child. destruct rooted.
      * rewrite bool_decide_eq_false_2 by discriminate.
        rewrite bool_decide_eq_false_2.
        -- now rewrite !append_assoc.
        -- intros Heq. apply Hj1.
           destruct (joinElements (e :: l)); [reflexivity|discriminate].
      * rewrite (bool_decide_eq_false_2 _ Hj1).
        rewrite (bool_decide_eq_false_2 _ Hj2).
        rewrite (bool_decide_eq_false_2 _ Hj3).
        rewrite bool_decide_eq_false_2; [reflexivity|].
        intros Heq.
        destruct (joinElements (e :: l)); [congruence|discriminate].
Qed.

End PathFacts.

Section Destination.
Import GoFilepath.

Lemma fileName_parts (b : Book) :
  fileName b
  = ReplaceAll (Title b) "/" "_" +:+ "." +:+ ReplaceAll (Format b) "/" "_".
Proof.
  unfold fileName. cbv zeta. rewrite !ReplaceAll_app. reflexivity.
Qed.

Lemma fileName_not_empty (b : Book) : fileName b <> EmptyString.
Proof.
  rewrite fileName_parts.
  destruct (ReplaceAll (Title b) "/" "_"); discriminate.
Qed.

(** The one path a run of [Download] can write to is [filePath]. *)
Lemma Download_writes_filePath (h : Host) (b : Book)
    (secretKey folderPath : string) (w : World) :
  let r := Download h b secretKey folderPath w in
  files r.2 = files w
  \/ exists data, files r.2 = <[filePath b folderPath := data]> (files w).
Proof.
  cbv zeta. rewrite Download_unfold.
  destruct (http_Get h (requests w) _) as [e|resp]; [now left|].
  destruct (json_Decode h (RespBody resp)) as [e|apiResp]; [now left|].
  destruct (bool_decide (DownloadURL apiResp = EmptyString)); [now left|].
  cbv zeta.
  destruct (http_Get h _ (DownloadURL apiResp)) as [e|downloadResp];
    [now left|].
  destruct (StatusCode downloadResp =? StatusOK); [|now left].
  destruct (os_Create h (files w) (filePath b folderPath)); [now left|].
  right. eexists. reflexivity.
Qed.


End Destination.





(** The other improper name: title ".", empty format; the join climbs to the
    parent of the destination directory. *)
Example filePath_dotdot :
  fileName (Scenario.book "." EmptyString) = ".."
  /\ filePath (Scenario.book "." EmptyString) "books/out" = "books".
Proof. split; reflexivity. Qed.



(* ===================================================================== *)
(** * Part III: further properties of the package                         *)
(* ===================================================================== *)

(** ** What trimming and stripping leave behind *)

Section TrimFacts.

Lemma append_empty_r (s : string) : s +:+ EmptyString = s.
Proof.
  induction s as [|c s IH]; [reflexivity|]. rewrite append_cons. now rewrite IH.
Qed.

Lemma drop_empty (n : nat) : drop n EmptyString = EmptyString.
Proof. destruct n; reflexivity. Qed.

Lemma drop_drop (n m : nat) (s : string) : drop n (drop m s) = drop (m + n) s.
Proof.
  revert s. induction m as [|m IH]; intros s; [reflexivity|].
  destruct s as [|c s]; [now rewrite !drop_empty|]. simpl. apply IH.
Qed.

Lemma take_drop (n : nat) (s : string) : take n s +:+ drop n s = s.
Proof.
  revert s. induction n as [|n IH]; intros [|c s]; try reflexivity.
  simpl. rewrite append_cons. now rewrite IH.
Qed.

Lemma rev_onto_spec (s acc : string) : rev_onto acc s = rev s +:+ acc.
Proof.
  revert acc. induction s as [|c s IH]; intros acc; [reflexivity|].
  unfold rev. simpl. rewrite (IH (String c acc)), (IH (String c EmptyString)).
  now rewrite append_assoc.
Qed.

Lemma rev_cons (c : ascii) (s : string) :
  rev (String c s) = rev s +:+ String c EmptyString.
Proof. unfold rev at 1. simpl. apply rev_onto_spec. Qed.

Lemma rev_app (s t : string) : rev (s +:+ t) = rev t +:+ rev s.
Proof.
  induction s as [|c s IH].
  - rewrite append_nil. change (rev EmptyString) with EmptyString.
    now rewrite append_empty_r.
  - rewrite append_cons, !rev_cons, IH. now rewrite append_assoc.
Qed.

Lemma rev_involutive (s : string) : rev (rev s) = s.
Proof.
  induction s as [|c s IH]; [reflexivity|].
  rewrite rev_cons, rev_app, IH. reflexivity.
Qed.

Lemma HasPrefix_app (t u r : string) :
  HasPrefix t r = true -> HasPrefix (t +:+ u) r = true.
Proof.
  revert t. induction r as [|a r IH]; intros t H; [reflexivity|].
  destruct t as [|c t]; [discriminate|]. rewrite append_cons. simpl in *.
  destruct (Ascii.eqb c a); [now apply IH|discriminate].
Qed.

Lemma leading_width_empty (runes : list string) :
  leading_width runes EmptyString = O.
Proof.
  induction runes as [|r runes IH]; [reflexivity|].
  simpl. destruct r; [reflexivity|exact IH].
Qed.

(** A white-space rune in front of a prefix is in front of the whole. *)
Lemma leading_width_prefix (runes : list string) (t u : string) :
  Forall (fun r => r <> EmptyString) runes ->
  leading_width runes (t +:+ u) = O -> leading_width runes t = O.
Proof.
  induction 1 as [|r runes Hr _ IH]; [reflexivity|]. simpl.
  destruct (HasPrefix t r) eqn:E.
  - rewrite (HasPrefix_app _ u _ E). intros H.
    destruct r; [congruence|discriminate].
  - destruct (HasPrefix (t +:+ u) r); [|exact IH].
    intros H. destruct r; [congruence|discriminate].
Qed.

Lemma strip_rounds_suffix (width : string -> nat) (r : nat) (s : string) :
  exists k, strip_rounds r width s = drop k s.
Proof.
  revert s. induction r as [|r IH]; intros s; [now exists O|].
  cbn [strip_rounds]. destruct (width s) as [|n]; [now exists O|].
  destruct (IH (drop (S n) s)) as [k Hk]. exists (S n + k)%nat.
  now rewrite Hk, drop_drop.
Qed.

(** What [strip] returns is what is left of [s] behind some offset. *)
Lemma strip_suffix (width : string -> nat) (s : string) :
  exists k, strip width s = drop k s.
Proof. apply strip_rounds_suffix. Qed.

Lemma strip_rounds_done (width : string -> nat) (r : nat) :
  width EmptyString = O ->
  forall s, (String.length s <= r)%nat ->
    width (strip_rounds r width s) = O.
Proof.
  intros H0. induction r as [|r IH]; intros s Hlen.
  - destruct s; [exact H0|simpl in Hlen; lia].
  - cbn [strip_rounds]. destruct (width s) as [|n] eqn:E; [exact E|].
    apply IH. destruct s as [|c s]; [simpl; lia|].
    simpl in *. pose proof (length_drop_le n s). lia.
Qed.

(** [strip] stops only where nothing more is to be cut. *)
Lemma strip_done (width : string -> nat) (s : string) :
  width EmptyString = O -> width (strip width s) = O.
Proof. intros H0. apply strip_rounds_done; [exact H0|lia]. Qed.

Lemma strip_fixed (width : string -> nat) (s : string) :
  width s = O -> strip width s = s.
Proof. intros H. rewrite strip_unfold, H. reflexivity. Qed.

Lemma spaces_not_empty : Forall (fun r => r <> EmptyString) spaces.
Proof. repeat constructor; discriminate. Qed.

Lemma TrimSpace_trimmed (s : string) : trimmed (TrimSpace s).
Proof.
  unfold trimmed, TrimSpace. cbv zeta.
  set (s1 := strip (leading_width spaces) s).
  split.
  - destruct (strip_suffix (leading_width (List.map rev spaces)) (rev s1))
      as [k Hk].
    rewrite Hk.
    apply (leading_width_prefix spaces _ (rev (take k (rev s1))));
      [exact spaces_not_empty|].
    rewrite <- rev_app, take_drop, rev_involutive.
    apply strip_done, leading_width_empty.
  - rewrite rev_involutive. apply strip_done, leading_width_empty.
Qed.

Lemma TrimSpace_fixed (s : string) : trimmed s -> TrimSpace s = s.
Proof.
  intros [Hl Hr]. unfold TrimSpace. cbv zeta.
  rewrite (strip_fixed _ _ Hl), (strip_fixed _ _ Hr). apply rev_involutive.
Qed.

Lemma trimmed_empty : trimmed EmptyString.
Proof. split; reflexivity. Qed.

Lemma has_byte_app (c : ascii) (s t : string) :
  has_byte c (s +:+ t) = has_byte c s || has_byte c t.
Proof.
  induction s as [|a s IH]; [reflexivity|].
  rewrite append_cons. simpl. rewrite IH. now rewrite orb_assoc.
Qed.

Lemma has_byte_rev (c : ascii) (s : string) : has_byte c (rev s) = has_byte c s.
Proof.
  induction s as [|a s IH]; [reflexivity|].
  rewrite rev_cons, has_byte_app, IH. simpl.
  rewrite orb_false_r. apply orb_comm.
Qed.

Lemma has_byte_drop (c : ascii) (k : nat) (s : string) :
  has_byte c s = false -> has_byte c (drop k s) = false.
Proof.
  intros H. rewrite <- (take_drop k s), has_byte_app in H.
  now apply orb_false_iff in H as [_ H].
Qed.

Lemma has_byte_strip (c : ascii) (width : string -> nat) (s : string) :
  has_byte c s = false -> has_byte c (strip width s) = false.
Proof.
  intros H. destruct (strip_suffix width s) as [k ->].
  now apply has_byte_drop.
Qed.

Lemma has_byte_TrimSpace (c : ascii) (s : string) :
  has_byte c s = false -> has_byte c (TrimSpace s) = false.
Proof.
  intros H. unfold TrimSpace. cbv zeta. rewrite has_byte_rev.
  apply has_byte_strip. rewrite has_byte_rev. now apply has_byte_strip.
Qed.

Lemma has_byte_take_before (c : ascii) (k : nat) (s : string) :
  (forall j, (j < k)%nat ->
     HasPrefix (drop j s) (String c EmptyString) = false) ->
  has_byte c (take k s) = false.
Proof.
  revert s. induction k as [|k IH]; intros s H; [reflexivity|].
  destruct s as [|a s]; [reflexivity|]. simpl.
  assert (H0 := H O ltac:(lia)). simpl in H0.
  destruct (Ascii.eqb a c); [discriminate|]. simpl.
  apply IH. intros j Hj. apply (H (S j)). lia.
Qed.

End TrimFacts.

(** ** More on the annotation parser *)

Section ParserFacts.

(** The two ways the parser ends on an annotation of three segments or
    more. *)
Lemma extractMetaInformation_cases (meta : string) :
  (3 <= List.length (segments meta))%nat ->
  let parts := segments meta in
  let r := extractMetaInformation meta in
  language_of r = extractLanguage (at_index parts 0)
  /\ ((exists k, firstSizeBearing parts k
                 /\ size_of r = TrimSpace (at_index parts k)
                 /\ format_of r =
                      if 2 <=? k then TrimSpace (at_index parts (k - 1))
                      else EmptyString)
      \/ (noSizeBearing parts
          /\ size_of r = EmptyString /\ format_of r = EmptyString)).
Proof.
  intros Hlen parts r. subst r.
  rewrite (extractMetaInformation_unfold meta Hlen). fold parts. cbv zeta.
  unfold language_of, size_of, format_of. cbn [fst snd].
  split; [reflexivity|].
  assert (Hn : 1 + Z.of_nat (List.length parts - 1)
               = Z.of_nat (List.length parts)) by (unfold parts; lia).
  destruct (scanLoop_spec parts (List.length parts - 1) 1)
    as [(k & Hk & Hs & Hb & Hr)|[Hb Hr]]; [lia| |]; rewrite Hr; cbn [fst snd].
  - left. exists k. split; [split; [lia|]; split; assumption|].
    replace (0 <? k) with true by (symmetry; apply Z.ltb_lt; lia).
    replace (k <? Z.of_nat (List.length parts)) with true
      by (symmetry; apply Z.ltb_lt; lia).
    replace (k - 1 <? Z.of_nat (List.length parts)) with true
      by (symmetry; apply Z.ltb_lt; lia).
    split; [reflexivity|].
    destruct (Z.leb_spec 2 k); destruct (Z.ltb_spec 0 (k - 1));
      try lia; reflexivity.
  - right. split; [|split; reflexivity].
    intros j Hj. apply Hb. lia.
Qed.

Lemma few_segments_empty (meta : string) :
  (List.length (segments meta) < 3)%nat ->
  extractMetaInformation meta = (EmptyString, EmptyString, EmptyString).
Proof.
  intros H. unfold extractMetaInformation, segments in *.
  replace (Z.of_nat (List.length (Split meta metaSep)) <? 3) with true
    by (symmetry; apply Z.ltb_lt; lia).
  reflexivity.
Qed.

Lemma hasSizeUnit_not_empty (s : string) :
  hasSizeUnit s = true -> s <> EmptyString.
Proof. intros H ->. discriminate H. Qed.

Lemma extractLanguage_clean (part0 : string) :
  leading_width checkmarkCutset (extractLanguage part0) = O
  /\ has_byte "[" (extractLanguage part0) = false.
Proof.
  unfold extractLanguage. cbv zeta.
  set (lp := TrimSpace part0).
  destruct (Z.ltb_spec 0 (Index lp "[")) as [Hpos|_]; [|split; reflexivity].
  split; [apply strip_done, leading_width_empty|].
  unfold TrimLeft. apply has_byte_strip, has_byte_TrimSpace.
  unfold Index in *.
  destruct (Index_from_spec "[" lp 0) as [[H _]|[k [H Hk]]]; [lia|lia|].
  rewrite H. replace (Z.to_nat (0 + Z.of_nat k)) with k by lia.
  apply has_byte_take_before. apply Hk.
Qed.

End ParserFacts.

Lemma format_size_trimmed (meta : string) :
  trimmed (format_of (extractMetaInformation meta))
  /\ trimmed (size_of (extractMetaInformation meta)).
Proof.
  destruct (Nat.lt_ge_cases (List.length (segments meta)) 3) as [H|H].
  - rewrite (few_segments_empty meta H). split; exact trimmed_empty.
  - destruct (extractMetaInformation_cases meta H)
      as [_ [(k & _ & -> & ->)|(_ & -> & ->)]].
    + split; [|apply TrimSpace_trimmed].
      destruct (2 <=? k); [apply TrimSpace_trimmed|exact trimmed_empty].
    + split; exact trimmed_empty.
Qed.

(** X1.  Whatever the annotation, the format and the size the parser returns
    carry no white space at either end, so trimming them again changes
    nothing. *)
Theorem extractMetaInformation_trimmed (meta : string) :
  let r := extractMetaInformation meta in
  trimmed (format_of r) /\ trimmed (size_of r)
  /\ TrimSpace (format_of r) = format_of r
  /\ TrimSpace (size_of r) = size_of r.
Proof.
  cbv zeta. destruct (format_size_trimmed meta) as [Hf Hs].
  split; [exact Hf|]. split; [exact Hs|].
  split; now apply TrimSpace_fixed.
Qed.

(** X2.  The size the parser returns is empty or contains one of the units
    "MB", "KB", "GB": no other text is ever reported as a size. *)
Theorem extractMetaInformation_size_unit (meta : string) :
  size_of (extractMetaInformation meta) = EmptyString
  \/ hasSizeUnit (size_of (extractMetaInformation meta)) = true.
Proof.
  destruct (Nat.lt_ge_cases (List.length (segments meta)) 3) as [H|H].
  - rewrite (few_segments_empty meta H). now left.
  - destruct (extractMetaInformation_cases meta H)
      as [_ [(k & (_ & Hs & _) & -> & _)|(_ & -> & _)]];
      [right; exact Hs|now left].
Qed.

(** X3.  A format is never reported without a size: when the format is not
    empty, the size is not empty either. *)
Theorem extractMetaInformation_format_needs_size (meta : string) :
  format_of (extractMetaInformation meta) <> EmptyString ->
  size_of (extractMetaInformation meta) <> EmptyString.
Proof.
  destruct (Nat.lt_ge_cases (List.length (segments meta)) 3) as [H|H].
  - rewrite (few_segments_empty meta H). intros Hf. now contradiction Hf.
  - destruct (extractMetaInformation_cases meta H)
      as [_ [(k & (_ & Hs & _) & -> & _)|(_ & _ & ->)]].
    + intros _. now apply hasSizeUnit_not_empty.
    + intros Hf. now contradiction Hf.
Qed.

Lemma extractMetaInformation_format_needs_size_witness :
  size_of (extractMetaInformation "✅ English [en] · PDF · 12.3MB · 2001")
  <> EmptyString.
Proof.
  apply extractMetaInformation_format_needs_size. vm_compute. discriminate.
Defined.

(** X4.  For an annotation of at least three segments the size is not empty
    exactly when some segment behind the first one, trimmed, contains a
    unit. *)
Theorem extractMetaInformation_size_iff (meta : string) :
  (3 <= List.length (segments meta))%nat ->
  size_of (extractMetaInformation meta) <> EmptyString
  <-> exists i, 1 <= i < Z.of_nat (List.length (segments meta))
                /\ sizeBearing (segments meta) i = true.
Proof.
  intros H.
  destruct (extractMetaInformation_cases meta H)
    as [_ [(k & (Hk & Hs & _) & -> & _)|(Hno & -> & _)]].
  - split; [intros _; exists k; split; assumption|].
    intros _. now apply hasSizeUnit_not_empty.
  - split; [intros Hf; now contradiction Hf|].
    intros (i & Hi & Hs). rewrite (Hno i Hi) in Hs. discriminate.
Qed.

Lemma extractMetaInformation_size_iff_witness :
  size_of (extractMetaInformation "English [en] · Hindi [hi] · 3KB")
  <> EmptyString.
Proof.
  assert (Hlen : (3 <= List.length
                    (segments "English [en] · Hindi [hi] · 3KB"))%nat)
    by (vm_compute; lia).
  apply (proj2 (extractMetaInformation_size_iff _ Hlen)).
  exists 2. split; [vm_compute; split; [discriminate|reflexivity]|].
  reflexivity.
Defined.

(** X5.  Whatever the annotation, the language the parser returns does not
    begin with a space or a check mark and holds no "[". *)
Theorem extractMetaInformation_language_clean (meta : string) :
  leading_width checkmarkCutset (language_of (extractMetaInformation meta)) = O
  /\ has_byte "[" (language_of (extractMetaInformation meta)) = false.
Proof.
  destruct (Nat.lt_ge_cases (List.length (segments meta)) 3) as [H|H].
  - rewrite (few_segments_empty meta H). split; reflexivity.
  - destruct (extractMetaInformation_cases meta H) as [-> _].
    apply extractLanguage_clean.
Qed.

(** ** The segments of an annotation *)

Section SplitFacts.

Variable sep : string.
Hypothesis sep_not_empty : sep <> EmptyString.

Lemma length_drop (k : nat) (s : string) :
  String.length (drop k s) = (String.length s - k)%nat.
Proof.
  revert s. induction k as [|k IH]; intros [|c s]; simpl; try lia. apply IH.
Qed.

Lemma length_take (m : nat) (s : string) :
  (m <= String.length s)%nat -> String.length (take m s) = m.
Proof.
  revert s. induction m as [|m IH]; intros [|c s] H; simpl in *; try lia.
  rewrite IH; lia.
Qed.

Lemma drop_take_app (j m : nat) (s : string) :
  (j <= m)%nat -> drop j s = drop j (take m s) +:+ drop m s.
Proof.
  revert m s. induction j as [|j IH]; intros m s H.
  - simpl. destruct (take m s) eqn:E; rewrite <- E; symmetry; apply take_drop.
  - destruct m as [|m]; [lia|]. destruct s as [|c s]; [reflexivity|].
    simpl. apply IH. lia.
Qed.

Lemma Index_found (s : string) :
  0 <= Index s sep -> first_at sep s (Z.to_nat (Index s sep)).
Proof.
  unfold Index. intros H.
  destruct (Index_from_spec sep s 0) as [[H1 _]|[k [H1 Hk]]]; [lia|lia|].
  rewrite H1. now replace (Z.to_nat (0 + Z.of_nat k)) with k by lia.
Qed.

Lemma Index_missing (s : string) : Index s sep < 0 -> nowhere sep s.
Proof.
  unfold Index. intros H.
  destruct (Index_from_spec sep s 0) as [[_ H1]|[k [H1 _]]]; [lia|exact H1|lia].
Qed.

Lemma first_at_cut (s : string) (m : nat) :
  first_at sep s m ->
  s = take m s +:+ sep +:+ drop (m + String.length sep) s.
Proof.
  intros (_ & Hpre & _). rewrite <- drop_drop.
  rewrite <- (HasPrefix_split _ _ Hpre). symmetry. apply take_drop.
Qed.

Lemma first_at_room (s : string) (m : nat) :
  first_at sep s m -> (m + String.length sep <= String.length s)%nat.
Proof.
  intros (Hle & Hpre & _). apply HasPrefix_length in Hpre.
  rewrite length_drop in Hpre. lia.
Qed.

Lemma take_before_first (s : string) (m : nat) :
  first_at sep s m -> nowhere sep (take m s).
Proof.
  intros Hm j Hj. pose proof (first_at_room _ _ Hm) as Hroom.
  destruct Hm as (Hle & _ & Hbefore).
  rewrite length_take in Hj by exact Hle.
  destruct (HasPrefix (drop j (take m s)) sep) eqn:E; [|reflexivity].
  pose proof (HasPrefix_length _ _ E) as Hlen.
  rewrite length_drop, length_take in Hlen by exact Hle.
  assert (Hjm : (j < m)%nat).
  { destruct sep; [congruence|]. simpl in Hlen. lia. }
  rewrite <- (Hbefore j Hjm), (drop_take_app j m s) by lia.
  symmetry. now apply HasPrefix_app.
Qed.

Lemma Split_not_nil (s : string) : Split s sep <> [].
Proof.
  unfold Split. destruct (String.length s); simpl; [discriminate|].
  destruct (Index s sep <? 0); discriminate.
Qed.

Lemma Join_cons (e : string) (l : list string) :
  l <> [] -> Join (e :: l) sep = e +:+ sep +:+ Join l sep.
Proof. destruct l; [congruence|reflexivity]. Qed.

(** Joining the pieces with the separator gives the string back, and no
    piece holds the separator. *)
Lemma Split_sound (n : nat) :
  forall s, (String.length s <= n)%nat ->
    Join (Split s sep) sep = s
    /\ Forall (fun p => Contains p sep = false) (Split s sep).
Proof.
  induction n as [|n IH]; intros s Hlen; rewrite (Split_unfold s sep sep_not_empty);
    cbv zeta; destruct (Z.ltb_spec (Index s sep) 0) as [Hneg|Hpos].
  - split; [reflexivity|]. constructor; [|constructor].
    now apply nowhere_Contains, Index_missing.
  - pose proof (first_at_room _ _ (Index_found s Hpos)).
    destruct sep; [congruence|]. simpl in *. lia.
  - split; [reflexivity|]. constructor; [|constructor].
    now apply nowhere_Contains, Index_missing.
  - pose proof (Index_found s Hpos) as Hm.
    set (m := Z.to_nat (Index s sep)) in *.
    pose proof (first_at_room _ _ Hm) as Hroom.
    assert (Hrest : (String.length (drop (m + String.length sep) s) <= n)%nat).
    { rewrite length_drop. destruct sep; [congruence|]. simpl in *. lia. }
    destruct (IH _ Hrest) as [Hjoin Hall]. split.
    + rewrite Join_cons by apply Split_not_nil.
      rewrite Hjoin. symmetry. now apply first_at_cut.
    + constructor; [|exact Hall].
      now apply nowhere_Contains, take_before_first.
Qed.

End SplitFacts.

(** X6.  Nothing of an annotation is lost in the split: its segments,
    joined with the delimiter, are the annotation. *)
Theorem segments_joined (meta : string) :
  Join (segments meta) metaSep = meta.
Proof.
  apply (Split_sound metaSep ltac:(discriminate) (String.length meta)).
  lia.
Qed.

(** X7.  An annotation has at least one segment, and no segment holds the
    delimiter. *)
Theorem segments_without_delimiter (meta : string) :
  (1 <= List.length (segments meta))%nat
  /\ Forall (fun p => Contains p metaSep = false) (segments meta).
Proof.
  split.
  - pose proof (Split_not_nil metaSep meta). unfold segments.
    destruct (Split meta metaSep); [congruence|simpl; lia].
  - apply (Split_sound metaSep ltac:(discriminate) (String.length meta)).
    lia.
Qed.

(** ** More on [FindBook] *)

Section SearchFacts.

Lemma bookOfElement_fields (h : Host) (url : string) (e : HTMLElement) :
  let b := bookOfElement h url e in
  let r := extractMetaInformation (info_meta e) in
  Language b = language_of r /\ Format b = format_of r /\ Size b = size_of r
  /\ Title b = TrimSpace (info_title e)
  /\ Authors b = TrimSpace (info_authors e)
  /\ Publisher b = TrimSpace (info_publisher e).
Proof.
  unfold bookOfElement. cbv zeta.
  destruct (extractMetaInformation (info_meta e)) as [[l f] z].
  repeat split.
Qed.

Lemma upperhex_unreserved (n : nat) :
  (n < 16)%nat -> GoUrl.unreserved (GoUrl.upperhex (Z.of_nat n)) = true.
Proof.
  intros H. do 16 (destruct n as [|n]; [reflexivity|]). lia.
Qed.

Lemma code_range (c : ascii) : 0 <= GoUrl.code c < 256.
Proof.
  unfold GoUrl.code. pose proof (nat_ascii_bounded c). lia.
Qed.

Lemma unhex_upperhex (n : nat) :
  (n < 16)%nat ->
  GoUrl.unhex (GoUrl.upperhex (Z.of_nat n)) = Some (Z.of_nat n).
Proof.
  intros H. do 16 (destruct n as [|n]; [reflexivity|]). lia.
Qed.

Lemma unreserved_plain (c : ascii) :
  GoUrl.unreserved c = true -> GoUrl.code c <> 37 /\ GoUrl.code c <> 43.
Proof.
  unfold GoUrl.unreserved. cbv zeta. intros H.
  repeat (apply orb_true_iff in H as [H|H]);
    repeat (apply andb_true_iff in H as [? H]); lia.
Qed.

Lemma unescape_cons (c : ascii) (s' : string) :
  GoUrl.unescape (String c s') =
    if GoUrl.code c =? 37 then
      match s' with
      | String x (String y rest) =>
          match GoUrl.unhex x, GoUrl.unhex y, GoUrl.unescape rest with
          | Some a, Some b, Some t =>
              Some (String (ascii_of_nat (Z.to_nat (16 * a + b))) t)
          | _, _, _ => None
          end
      | _ => None
      end
    else
      match GoUrl.unescape s' with
      | Some t =>
          Some (String (if GoUrl.code c =? 43 then " "%char else c) t)
      | None => None
      end.
Proof. reflexivity. Qed.

Lemma code_inj (c : ascii) (n : Z) :
  GoUrl.code c = n -> c = ascii_of_nat (Z.to_nat n).
Proof.
  intros <-. unfold GoUrl.code. rewrite Nat2Z.id.
  symmetry. apply ascii_nat_embedding.
Qed.

Lemma QueryEscape_unescape (s : string) :
  GoUrl.unescape (GoUrl.QueryEscape s) = Some s.
Proof.
  induction s as [|c s IH]; [reflexivity|].
  cbn [GoUrl.QueryEscape]. pose proof (code_range c) as Hc.
  destruct (GoUrl.unreserved c) eqn:Hu.
  - destruct (unreserved_plain c Hu) as [H37 H43].
    rewrite unescape_cons, IH.
    apply Z.eqb_neq in H37, H43. now rewrite H37, H43.
  - destruct (Z.eqb_spec (GoUrl.code c) 32) as [H32|_].
    + rewrite unescape_cons, IH.
      change (GoUrl.code "+" =? 37) with false.
      change (GoUrl.code "+" =? 43) with true. cbv iota.
      now rewrite (code_inj c 32 H32).
    + rewrite unescape_cons.
      change (GoUrl.code "%" =? 37) with true. cbv iota.
      rewrite Z.shiftr_div_pow2 by lia.
      change 15 with (Z.ones 4). rewrite Z.land_ones by lia.
      change (2 ^ 4) with 16.
      pose proof (Z.div_pos (GoUrl.code c) 16 ltac:(lia) ltac:(lia)) as Hhi.
      assert (Hhi' : GoUrl.code c / 16 < 16)
        by (apply Z.div_lt_upper_bound; lia).
      pose proof (Z.mod_pos_bound (GoUrl.code c) 16 ltac:(lia)) as Hlo.
      rewrite <- (Z2Nat.id (GoUrl.code c / 16)) at 1 by lia.
      rewrite unhex_upperhex by lia.
      rewrite <- (Z2Nat.id (GoUrl.code c mod 16)) at 1 by lia.
      rewrite unhex_upperhex by lia.
      rewrite IH, !Z2Nat.id by lia.
      rewrite <- (Z.div_mod (GoUrl.code c) 16) by lia.
      now rewrite <- (code_inj c _ eq_refl).
Qed.

End SearchFacts.

(** X8.  Every record [FindBook] returns has its title, authors, publisher,
    format and size free of white space at either end. *)
Theorem FindBook_records_trimmed (h : Host) (query : string) (b : Book) :
  In b (FindBook h query).1 ->
  trimmed (Title b) /\ trimmed (Authors b) /\ trimmed (Publisher b)
  /\ trimmed (Format b) /\ trimmed (Size b).
Proof.
  unfold FindBook. cbn [fst]. intros Hin.
  apply in_map_iff in Hin as (e & <- & _).
  destruct (bookOfElement_fields h
              (AnnasSearchEndpoint (GoUrl.QueryEscape query)) e)
    as (_ & -> & -> & -> & -> & ->).
  destruct (format_size_trimmed (info_meta e)) as [Hf Hs].
  split; [apply TrimSpace_trimmed|]. split; [apply TrimSpace_trimmed|].
  split; [apply TrimSpace_trimmed|]. split; assumption.
Qed.

Lemma FindBook_records_trimmed_witness :
  trimmed "Dune" /\ trimmed "Frank Herbert" /\ trimmed "Ace"
  /\ trimmed "EPUB" /\ trimmed "0.7MB".
Proof.
  refine (FindBook_records_trimmed
            (Scenario.scripted [Scenario.anchor "/md5/d41d8"]
               (Scenario.resolvedTo "http://x/file.epub") 200
               Scenario.noBody)
            "dune"
            {| Language := "English"; Format := "EPUB"; Size := "0.7MB";
               Title := "Dune"; Publisher := "Ace";
               Authors := "Frank Herbert";
               URL := "https://annas-archive.org/md5/d41d8";
               Hash := "d41d8" |} _).
  left. reflexivity.
Defined.

(** X9.  The query part of the URL [FindBook] fetches is made of unreserved
    characters, "+" and "%" only: no query text can end the parameter or
    add another one. *)
Theorem QueryEscape_bytes (query : string) :
  GoUrl.all_bytes GoUrl.escapedByte (GoUrl.QueryEscape query) = true.
Proof.
  induction query as [|c q IH]; [reflexivity|].
  cbn [GoUrl.QueryEscape].
  destruct (GoUrl.unreserved c) eqn:Hu.
  - cbn [GoUrl.all_bytes]. unfold GoUrl.escapedByte at 1. now rewrite Hu.
  - destruct (GoUrl.code c =? 32); [exact IH|].
    cbn [GoUrl.all_bytes]. rewrite IH.
    pose proof (code_range c) as Hc.
    assert (H1 : GoUrl.unreserved
                   (GoUrl.upperhex (Z.shiftr (GoUrl.code c) 4)) = true).
    { rewrite Z.shiftr_div_pow2 by lia.
      rewrite <- (Z2Nat.id (GoUrl.code c / 2 ^ 4))
        by (apply Z.div_pos; lia).
      apply upperhex_unreserved.
      assert (GoUrl.code c / 2 ^ 4 < 16)
        by (apply Z.div_lt_upper_bound; lia).
      lia. }
    assert (H2 : GoUrl.unreserved
                   (GoUrl.upperhex (Z.land (GoUrl.code c) 15)) = true).
    { change 15 with (Z.ones 4). rewrite Z.land_ones by lia.
      pose proof (Z.mod_pos_bound (GoUrl.code c) (2 ^ 4) ltac:(lia)).
      rewrite <- (Z2Nat.id (GoUrl.code c mod 2 ^ 4)) by lia.
      apply upperhex_unreserved. lia. }
    unfold GoUrl.escapedByte. rewrite H1, H2. reflexivity.
Qed.

(** X10.  Escaping loses nothing: two different queries are never fetched
    from the same URL. *)
Theorem QueryEscape_injective (q1 q2 : string) :
  AnnasSearchEndpoint (GoUrl.QueryEscape q1)
  = AnnasSearchEndpoint (GoUrl.QueryEscape q2) ->
  q1 = q2.
Proof.
  unfold AnnasSearchEndpoint. intros H. apply String.app_inj in H.
  assert (Hd : GoUrl.unescape (GoUrl.QueryEscape q1)
               = GoUrl.unescape (GoUrl.QueryEscape q2)) by now rewrite H.
  rewrite !QueryEscape_unescape in Hd. congruence.
Qed.

Lemma QueryEscape_injective_witness : "a b" = "a b".
Proof.
  apply (QueryEscape_injective "a b" "a b"). reflexivity.
Defined.

(** X11.  [FindBook] returns the empty list in two cases and only then: the
    fetch failed, or the page has no primary anchor; the nil error is the
    same in both. *)
Theorem FindBook_empty_iff (h : Host) (query : string) :
  let visit := colly_Visit h (AnnasSearchEndpoint (GoUrl.QueryEscape query)) in
  (FindBook h query).2 = None
  /\ ((FindBook h query).1 = []
      <-> (exists e, visit = inl e)
          \/ (exists page, visit = inr page
                /\ Forall (fun a => isPrimaryAnchor a = false) page)).
Proof.
  cbv zeta. split; [reflexivity|]. unfold FindBook. cbn [fst].
  destruct (colly_Visit h _) as [e|page].
  - split; [intros _; left; now exists e|reflexivity].
  - split.
    + intros H. right. exists page. split; [reflexivity|].
      apply map_eq_nil in H. clear -H.
      induction page as [|a page IH]; [constructor|].
      simpl in H. destruct (isPrimaryAnchor a) eqn:E; [discriminate|].
      constructor; [exact E|now apply IH].
    + intros [[e He]|(page' & Hp & Hall)]; [discriminate|].
      injection Hp as <-. clear -Hall.
      induction Hall as [|a page Ha _ IH]; [reflexivity|].
      simpl. now rewrite Ha.
Qed.

(** ** More on [Download] *)

Section TransferFacts.

Lemma take_all (s : string) : take (String.length s) s = s.
Proof. induction s as [|c s IH]; [reflexivity|]. simpl. now rewrite IH. Qed.

(** [io.Copy] writes a prefix of what the body delivers. *)
Lemma copied_prefix (h : Host) (p : string) (src : Body) :
  exists n, (copied h p src).1 = take n (body_data src).
Proof.
  unfold copied. destruct (write_fault h p) as [[n e]|].
  - destruct (n <? String.length (body_data src))%nat;
      [now exists n|eexists; symmetry; apply take_all].
  - eexists. symmetry. apply take_all.
Qed.



End TransferFacts.


(** X13.  A transport failure of the resolve request, a failure to decode
    its answer and a transport failure of the fetch request each end the
    run with that very error, and no file has been touched. *)
Theorem Download_errors_unchanged (h : Host) (b : Book)
    (secretKey folderPath : string) (w : World) :
  let apiURL := AnnasDownloadEndpoint (Hash b) secretKey in
  let r := Download h b secretKey folderPath w in
  (forall e, http_Get h (requests w) apiURL = inl e ->
     r.1 = Some e /\ files r.2 = files w)
  /\ (forall resp e,
        http_Get h (requests w) apiURL = inr resp ->
        json_Decode h (RespBody resp) = inl e ->
        r.1 = Some e /\ files r.2 = files w)
  /\ (forall resp apiResp e,
        http_Get h (requests w) apiURL = inr resp ->
        json_Decode h (RespBody resp) = inr apiResp ->
        DownloadURL apiResp <> EmptyString ->
        http_Get h (requests w ++ [apiURL]) (DownloadURL apiResp) = inl e ->
        r.1 = Some e /\ files r.2 = files w).
Proof.
  cbv zeta. rewrite Download_unfold. split; [|split].
  - intros e ->. split; reflexivity.
  - intros resp e -> ->. split; reflexivity.
  - intros resp apiResp e -> -> Hurl.
    rewrite bool_decide_eq_false_2 by exact Hurl. cbv zeta.
    intros ->. split; reflexivity.
Qed.

Lemma Download_errors_unchanged_witness :
  (Download Scenario.unreachable (Scenario.book "Dune" "epub") "key" "out"
     Scenario.fresh).1
  = Some (errors_New "connection refused")
  /\ files
       (Download Scenario.unreachable (Scenario.book "Dune" "epub") "key"
          "out" Scenario.fresh).2
     = ∅.
Proof.
  refine (proj1 (Download_errors_unchanged Scenario.unreachable
                   (Scenario.book "Dune" "epub") "key" "out" Scenario.fresh)
            (errors_New "connection refused") _).
  reflexivity.
Defined.

(** X14.  Whatever happens, a run of [Download] leaves every file other than
    the destination file as it was. *)
Theorem Download_other_files (h : Host) (b : Book)
    (secretKey folderPath : string) (w : World) (q : string) :
  q <> filePath b folderPath ->
  files (Download h b secretKey folderPath w).2 !! q = files w !! q.
Proof.
  intros Hq.
  destruct (Download_writes_filePath h b secretKey folderPath w)
    as [->|[data ->]]; [reflexivity|].
  now apply lookup_insert_ne.
Qed.

Lemma Download_other_files_witness :
  files
    (Download (Scenario.scripted [] (Scenario.resolvedTo "http://x/file.epub")
                 200 {| body_data := "PK book"; body_err := None |})
       (Scenario.book "Dune" "epub") "key" "out"
       {| files := {[ "out/notes.txt" := "keep me" ]}; requests := [] |}).2
    !! "out/notes.txt"
  = Some "keep me".
Proof.
  refine (eq_trans
            (Download_other_files
               (Scenario.scripted []
                  (Scenario.resolvedTo "http://x/file.epub")
                  200 {| body_data := "PK book"; body_err := None |})
               (Scenario.book "Dune" "epub") "key" "out"
               {| files := {[ "out/notes.txt" := "keep me" ]};
                  requests := [] |}
               "out/notes.txt" _) _).
  - discriminate.
  - reflexivity.
Defined.

(** X15.  The files change only after a fetch answered with status 200 and
    a successful [os.Create], and then the destination file holds a prefix
    of the body of that answer: never bytes from anywhere else. *)
Theorem Download_file_change (h : Host) (b : Book)
    (secretKey folderPath : string) (w : World) :
  let apiURL := AnnasDownloadEndpoint (Hash b) secretKey in
  let r := Download h b secretKey folderPath w in
  let p := filePath b folderPath in
  files r.2 = files w
  \/ exists url body n,
       http_Get h (requests w ++ [apiURL]) url
       = inr {| StatusCode := 200; RespBody := body |}
       /\ os_Create h (files w) p = None
       /\ files r.2 = <[p := take n (body_data body)]> (files w).
Proof.
  cbv zeta. rewrite Download_unfold.
  destruct (http_Get h (requests w) _) as [e|resp]; [now left|].
  destruct (json_Decode h (RespBody resp)) as [e|apiResp]; [now left|].
  destruct (bool_decide (DownloadURL apiResp = EmptyString)); [now left|].
  cbv zeta.
  destruct (http_Get h _ (DownloadURL apiResp)) as [e|[status body]] eqn:Hget;
    [now left|].
  cbn [StatusCode RespBody]. unfold StatusOK.
  destruct (Z.eqb_spec status 200) as [->|_]; [|now left].
  destruct (os_Create h (files w) (filePath b folderPath)) eqn:Hcreate;
    [now left|].
  right. destruct (copied_prefix h (filePath b folderPath) body) as [n Hn].
  exists (DownloadURL apiResp), body, n.
  split; [exact Hget|]. split; [reflexivity|].
  cbn [snd files]. now rewrite Hn.
Qed.



(** ** More on the file name *)

Section NameFacts.

Lemma ReplaceAll_cons (c : ascii) (s : string) :
  ReplaceAll (String c s) "/" "_"
  = String (if Ascii.eqb c "/" then "_"%char else c) (ReplaceAll s "/" "_").
Proof. cbn [ReplaceAll]. destruct (Ascii.eqb c "/"); reflexivity. Qed.

Lemma ReplaceAll_length (s : string) :
  String.length (ReplaceAll s "/" "_") = String.length s.
Proof.
  induction s as [|c s IH]; [reflexivity|].
  rewrite ReplaceAll_cons. simpl. now rewrite IH.
Qed.

Lemma ReplaceAll_plain (s : string) :
  has_byte "/" s = false -> ReplaceAll s "/" "_" = s.
Proof.
  induction s as [|c s IH]; [reflexivity|].
  rewrite ReplaceAll_cons. simpl.
  destruct (Ascii.eqb c "/"); [discriminate|].
  simpl. intros H. now rewrite IH.
Qed.

Lemma fileName_length (b : Book) :
  String.length (fileName b)
  = (String.length (Title b) + 1 + String.length (Format b))%nat.
Proof.
  unfold fileName. cbv zeta. rewrite ReplaceAll_length, !length_append.
  simpl. lia.
Qed.

Lemma length_zero (s : string) : String.length s = O -> s = EmptyString.
Proof. destruct s; [reflexivity|discriminate]. Qed.

Lemma length_one (s : string) :
  String.length s = 1%nat -> exists c, s = String c EmptyString.
Proof.
  destruct s as [|c [|? ?]]; try discriminate. intros _. now exists c.
Qed.

End NameFacts.

(** X17.  The two file names that are no entry of the destination
    directory arise from these records only: "." when title and format are
    both empty, ".." when one of them is "." and the other is empty. *)
Theorem fileName_dot_names (b : Book) :
  (fileName b = "." <-> Title b = EmptyString /\ Format b = EmptyString)
  /\ (fileName b = ".."
      <-> (Title b = "." /\ Format b = EmptyString)
          \/ (Title b = EmptyString /\ Format b = ".")).
Proof.
  pose proof (fileName_length b) as Hlen. split; split.
  - intros H. rewrite H in Hlen. simpl in Hlen.
    split; apply length_zero; lia.
  - unfold fileName. intros [-> ->]. reflexivity.
  - intros H. rewrite H in Hlen. simpl in Hlen.
    destruct (Title b) as [|c t] eqn:Et.
    + right. split; [reflexivity|].
      destruct (length_one (Format b) ltac:(simpl in Hlen; lia)) as [a Ha].
      unfold fileName in H. rewrite Et, Ha in H. rewrite Ha.
      cbv zeta in H. change (EmptyString +:+ "." +:+ String a EmptyString)
        with (String "." (String a EmptyString)) in H.
      rewrite !ReplaceAll_cons in H.
      change (Ascii.eqb "." "/") with false in H. cbv iota in H.
      destruct (Ascii.eqb a "/"); congruence.
    + left. simpl in Hlen.
      assert (Ht : t = EmptyString) by (apply length_zero; lia).
      assert (Hf : Format b = EmptyString) by (apply length_zero; lia).
      split; [|exact Hf]. subst t.
      unfold fileName in H. rewrite Et, Hf in H. cbv zeta in H.
      change (String c EmptyString +:+ "." +:+ EmptyString)
        with (String c (String "." EmptyString)) in H.
      rewrite !ReplaceAll_cons in H.
      destruct (Ascii.eqb c "/"); congruence.
  - unfold fileName. intros [[-> ->]|[-> ->]]; reflexivity.
Qed.

(** X18.  The replacement changes no length, and when neither the title nor
    the format holds a "/" the file name is exactly [Title.Format]. *)
Theorem fileName_plain (b : Book) :
  String.length (fileName b)
  = (String.length (Title b) + 1 + String.length (Format b))%nat
  /\ (has_byte "/" (Title b) = false -> has_byte "/" (Format b) = false ->
      fileName b = Title b +:+ "." +:+ Format b).
Proof.
  split; [apply fileName_length|]. intros Ht Hf.
  unfold fileName. cbv zeta. apply ReplaceAll_plain.
  rewrite !has_byte_app, Ht, Hf. reflexivity.
Qed.

Lemma fileName_plain_witness :
  fileName (Scenario.book "Dune Messiah" "epub") = "Dune Messiah.epub".
Proof.
  refine (proj2 (fileName_plain (Scenario.book "Dune Messiah" "epub")) _ _);
    reflexivity.
Defined.

(** ** The multi-line form *)

Section RenderingFacts.

Lemma newline_cut (s1 s2 r1 r2 : string) :
  oneLine s1 -> oneLine s2 ->
  s1 +:+ newline +:+ r1 = s2 +:+ newline +:+ r2 ->
  s1 = s2 /\ r1 = r2.
Proof.
  unfold oneLine, newline. revert s2.
  induction s1 as [|c s1 IH]; intros [|d s2] H1 H2 H;
    rewrite ?append_cons, ?append_nil in H.
  - injection H as ->. split; reflexivity.
  - injection H as <- _. simpl in H2. discriminate.
  - injection H as -> _. simpl in H1. discriminate.
  - injection H as -> H.
    simpl in H1, H2. apply orb_false_iff in H1 as [_ H1].
    apply orb_false_iff in H2 as [_ H2].
    assert (H' : s1 +:+ String (ascii_of_nat 10) EmptyString +:+ r1
                 = s2 +:+ String (ascii_of_nat 10) EmptyString +:+ r2)
      by (rewrite ?append_cons, ?append_nil; exact H).
    destruct (IH s2 H1 H2 H') as [-> ->]. split; reflexivity.
Qed.

End RenderingFacts.

(** X19.  The multi-line form tells records apart: two records whose
    fields, the hash aside, hold no line feed and whose forms are equal are
    the same record. *)
Theorem Book_String_injective (b1 b2 : Book) :
  (oneLine (Title b1) /\ oneLine (Authors b1) /\ oneLine (Publisher b1)
   /\ oneLine (Language b1) /\ oneLine (Format b1) /\ oneLine (Size b1)
   /\ oneLine (URL b1)) ->
  (oneLine (Title b2) /\ oneLine (Authors b2) /\ oneLine (Publisher b2)
   /\ oneLine (Language b2) /\ oneLine (Format b2) /\ oneLine (Size b2)
   /\ oneLine (URL b2)) ->
  Book_String b1 = Book_String b2 -> b1 = b2.
Proof.
  intros (T1 & A1 & P1 & L1 & F1 & S1 & U1) (T2 & A2 & P2 & L2 & F2 & S2 & U2).
  unfold Book_String. intros H.
  apply String.app_inj in H. apply newline_cut in H as [HT H]; [|assumption..].
  apply String.app_inj in H. apply newline_cut in H as [HA H]; [|assumption..].
  apply String.app_inj in H. apply newline_cut in H as [HP H]; [|assumption..].
  apply String.app_inj in H. apply newline_cut in H as [HL H]; [|assumption..].
  apply String.app_inj in H. apply newline_cut in H as [HF H]; [|assumption..].
  apply String.app_inj in H. apply newline_cut in H as [HS H]; [|assumption..].
  apply String.app_inj in H. apply newline_cut in H as [HU H]; [|assumption..].
  apply String.app_inj in H.
  destruct b1, b2. simpl in *. congruence.
Qed.

Lemma Book_String_injective_witness :
  Scenario.book "Dune" "epub" = Scenario.book "Dune" "epub".
Proof.
  apply Book_String_injective; [repeat split..|reflexivity].
Defined.

(** The form of the scenario's record. *)
Example Book_String_dune :
  Book_String (Scenario.book "Dune" "epub")
  = "Title: Dune" +:+ newline +:+ "Authors: Frank Herbert" +:+ newline
    +:+ "Publisher: Ace" +:+ newline +:+ "Language: English" +:+ newline
    +:+ "Format: epub" +:+ newline +:+ "Size: 0.7MB" +:+ newline
    +:+ "URL: https://annas-archive.org/md5/d41d8" +:+ newline
    +:+ "Hash: d41d8".
Proof. reflexivity. Qed.

(** ** The destination directory as the caller writes it *)

Section FolderFacts.
Import GoFilepath.

Lemma fold_cleanStep_skip (rooted : bool) (es1 es2 kept : list string) :
  List.fold_left (cleanStep rooted) (es1 ++ [EmptyString] ++ es2) kept
  = List.fold_left (cleanStep rooted) (es1 ++ es2) kept.
Proof.
  rewrite !List.fold_left_app. reflexivity.
Qed.

Lemma HasPrefix_slash_app (dir rest : string) :
  dir <> EmptyString ->
  HasPrefix (dir +:+ rest) "/" = HasPrefix dir "/".
Proof.
  destruct dir as [|c dir]; [congruence|]. intros _.
  rewrite append_cons. reflexivity.
Qed.

End FolderFacts.

(** X20.  A slash at the end of a non-empty destination directory makes no
    difference to the path [Download] writes to. *)
Theorem filePath_trailing_slash (b : Book) (folderPath : string) :
  folderPath <> EmptyString ->
  filePath b (folderPath +:+ "/") = filePath b folderPath.
Proof.
  intros Hd. unfold filePath, GoFilepath.Join.
  assert (Hd' : folderPath +:+ "/" <> EmptyString).
  { destruct folderPath; [congruence|]. rewrite append_cons. discriminate. }
  rewrite !bool_decide_eq_false_2 by assumption.
  unfold GoFilepath.Clean, GoFilepath.cleanElements.
  rewrite append_assoc.
  rewrite !HasPrefix_slash_app by assumption.
  rewrite (elements_app folderPath (fileName b)).
  rewrite (elements_app folderPath ("/" +:+ fileName b)).
  change (GoFilepath.elements ("/" +:+ fileName b))
    with ([EmptyString] ++ GoFilepath.elements (fileName b)).
  now rewrite fold_cleanStep_skip.
Qed.

Lemma filePath_trailing_slash_witness :
  filePath (Scenario.book "Dune" "epub") ("books/out" +:+ "/")
  = "books/out/Dune.epub".
Proof.
  refine (eq_trans
            (filePath_trailing_slash (Scenario.book "Dune" "epub")
               "books/out" _) _).
  - discriminate.
  - reflexivity.
Defined.

(** X21.  With an empty destination directory, and likewise with ".", the
    file is written under its bare name, provided the name is neither "."
    nor "..". *)
Theorem filePath_no_folder (b : Book) :
  fileName b <> "." -> fileName b <> ".." ->
  filePath b EmptyString = fileName b /\ filePath b "." = fileName b.
Proof.
  intros Hdot Hdotdot.
  assert (H : forall dir, filePath b dir
                          = GoFilepath.child (GoFilepath.Clean dir) (fileName b)).
  { intros dir. unfold filePath. apply Join_child; try assumption.
    - apply ReplaceAll_slash_nowhere.
    - apply fileName_not_empty. }
  split; rewrite H; reflexivity.
Qed.

Lemma filePath_no_folder_witness :
  filePath (Scenario.book "Dune" "epub") EmptyString = "Dune.epub"
  /\ filePath (Scenario.book "Dune" "epub") "." = "Dune.epub".
Proof.
  refine (filePath_no_folder (Scenario.book "Dune" "epub") _ _); discriminate.
Defined.
